(** * GANZA AI WebSocket relay: the two proxy servers, embedded and verified

    The repository ships two variants of one relay:
    - [server.py]            (managed variant: bearer token + client-supplied URL)
    - [server_gemini_api.py] (direct-key variant: API key in the URL, and a
      rewrite of the client's [setup] message).

    This development embeds both in Gallina.  Python values that come out of
    [json.loads] are a tree type [json]; a Python [dict] is an association list
    in insertion order; a raised exception is the [Raise] branch of a small
    error monad; a websocket is a record holding its connection state and the
    frames written to it.  A frame on the wire is represented by the JSON
    value it encodes (or by its raw text when it encodes none), so that
    [json.loads] and [json.dumps] need no parser here.  Library primitives
    ([str.split], [in], [del], [websocket.send] ...) are modelled once, in the
    first part, and the functions of the two servers are transcribed on top of
    them. *)

From Stdlib Require Import String Ascii List ZArith Bool Lia.
From Stdlib Require Import Floats.PrimFloat.
Import ListNotations.

Open Scope string_scope.
Open Scope list_scope.

(** ** Python strings

    A [str] is given by the bytes of its UTF-8 encoding; the patterns the
    servers search for are ASCII, and those match at the same places in the
    bytes as in the code points. *)

Module PyStr.

(** [s.startswith(p)] *)
Definition startswith (s p : string) : bool := String.prefix p s.

(** [sub in s] for two strings: some suffix of [s] starts with [sub]. *)
Fixpoint contains (sub s : string) : bool :=
  String.prefix sub s
  || match s with
     | EmptyString => false
     | String _ s' => contains sub s'
     end.

(** [s.split(sep)] for a non-empty [sep]: scan from the left, cut at the
    leftmost occurrence, resume after it (so occurrences never overlap).
    [skip] counts the characters of a matched separator still to be jumped
    over.  The pieces come out in order and the list is never empty. *)
Fixpoint split_from (sep s : string) (skip : nat) : list string :=
  match s with
  | EmptyString => [EmptyString]
  | String c s' =>
      match skip with
      | S k => split_from sep s' k
      | O =>
          if String.prefix sep s
          then EmptyString :: split_from sep s' (String.length sep - 1)
          else match split_from sep s' 0 with
               | piece :: rest => String c piece :: rest
               | [] => [String c EmptyString]
               end
      end
  end.

Definition split (s sep : string) : list string := split_from sep s 0.

(** [s.endswith(p)], used only to state properties. *)
Fixpoint endswith (s p : string) : bool :=
  String.eqb s p
  || match s with
     | EmptyString => false
     | String _ s' => endswith s' p
     end.

End PyStr.

(** ** Python values, exceptions, dictionaries *)

Module Py.

(** Exceptions the two servers can meet.  Every one of them derives from
    [Exception]; [CancelledError] (a [BaseException]) is not a value of this
    type: cancellation is modelled where it happens, in [create_proxy]. *)
Inductive exn : Type :=
| TypeError
| AttributeError
| KeyError
| JSONDecodeError
| ConnectionClosed.

(** A computation that returns or raises. *)
Inductive res (A : Type) : Type :=
| Ok (a : A)
| Raise (e : exn).
Arguments Ok {A} a.
Arguments Raise {A} e.

Definition bind {A B : Type} (m : res A) (k : A -> res B) : res B :=
  match m with
  | Ok a => k a
  | Raise e => Raise e
  end.

(** What [json.loads] returns: [int] is unbounded, [float] is a binary64. *)
#[warning="-register-all"]
Inductive json : Type :=
| JNull
| JBool (b : bool)
| JInt (n : Z)
| JFloat (f : float)
| JStr (s : string)
| JArr (l : list json)
| JObj (d : list (string * json)).

(** A [dict] with string keys, in insertion order. *)
Definition dict : Type := list (string * json).

(** [key in d] *)
Fixpoint dict_has (key : string) (d : dict) : bool :=
  match d with
  | [] => false
  | (k, _) :: d' => String.eqb k key || dict_has key d'
  end.

(** [d[key]], [None] standing for [KeyError] *)
Fixpoint dict_get (key : string) (d : dict) : option json :=
  match d with
  | [] => None
  | (k, v) :: d' => if String.eqb k key then Some v else dict_get key d'
  end.

(** [d[key] = v]: an existing key keeps its position, a new one goes last. *)
Fixpoint dict_set (key : string) (v : json) (d : dict) : dict :=
  match d with
  | [] => [(key, v)]
  | (k, w) :: d' =>
      if String.eqb k key then (k, v) :: d' else (k, w) :: dict_set key v d'
  end.

(** [del d[key]]: the entry of [key] goes, the others keep their order. *)
Fixpoint dict_del (key : string) (d : dict) : dict :=
  match d with
  | [] => []
  | (k, w) :: d' =>
      if String.eqb k key then dict_del key d' else (k, w) :: dict_del key d'
  end.

(** [list(d)]: the keys, in order. *)
Definition keys (d : dict) : list string := map fst d.

(** Keys are unique in every dictionary Python builds. *)
Definition dict_wf (d : dict) : Prop := NoDup (keys d).

(** [bool(x)] *)
Definition truthy (x : json) : bool :=
  match x with
  | JNull => false
  | JBool b => b
  | JInt n => negb (Z.eqb n 0)
  | JFloat f => negb (PrimFloat.eqb f PrimFloat.zero)
  | JStr s => negb (String.eqb s EmptyString)
  | JArr l => match l with [] => false | _ :: _ => true end
  | JObj d => match d with [] => false | _ :: _ => true end
  end.

(** [x == needle] for a string literal [needle] *)
Definition eq_str (x : json) (needle : string) : bool :=
  match x with
  | JStr s => String.eqb s needle
  | _ => false
  end.

(** [needle in c] for a string literal [needle]: key membership in a dict,
    element membership in a list, substring test in a string, [TypeError] on
    everything else. *)
Definition contains (needle : string) (c : json) : res bool :=
  match c with
  | JObj d => Ok (dict_has needle d)
  | JArr l => Ok (existsb (fun x => eq_str x needle) l)
  | JStr s => Ok (PyStr.contains needle s)
  | JNull | JBool _ | JInt _ | JFloat _ => Raise TypeError
  end.

(** [c[key]] for a string literal [key] *)
Definition getitem (c : json) (key : string) : res json :=
  match c with
  | JObj d => match dict_get key d with
              | Some v => Ok v
              | None => Raise KeyError
              end
  | _ => Raise TypeError
  end.

(** [c[key] = v] *)
Definition setitem (c : json) (key : string) (v : json) : res json :=
  match c with
  | JObj d => Ok (JObj (dict_set key v d))
  | _ => Raise TypeError
  end.

(** [del c[key]] *)
Definition delitem (c : json) (key : string) : res json :=
  match c with
  | JObj d => if dict_has key d then Ok (JObj (dict_del key d)) else Raise KeyError
  | _ => Raise TypeError
  end.

(** [c.get(key)]: only a dict has the method. *)
Definition get (c : json) (key : string) : res json :=
  match c with
  | JObj d => Ok (match dict_get key d with Some v => v | None => JNull end)
  | _ => Raise AttributeError
  end.

(** [s.split(sep)]: only a string has the method. *)
Definition split (c : json) (sep : string) : res (list string) :=
  match c with
  | JStr s => Ok (PyStr.split s sep)
  | _ => Raise AttributeError
  end.

(** A frame received from a websocket: the text of a JSON document, given
    by the value it denotes, or some other text. *)
Inductive frame : Type :=
| Json (data : json)
| NotJson (raw : string).

(** [json.loads(message)] *)
Definition loads (message : frame) : res json :=
  match message with
  | Json data => Ok data
  | NotJson _ => Raise JSONDecodeError
  end.

End Py.

Declare Scope py_scope.
Delimit Scope py_scope with py.
Notation "x <- m ;; k" := (Py.bind m (fun x => k))
  (at level 61, m at next level, right associativity) : py_scope.

(** ** Websocket connections, as the [websockets] library presents them *)

Module WS.

(** The arguments of a [close] call: [close()] or [close(code=..., reason=...)]. *)
Inductive close_call : Type :=
| CloseDefault
| CloseWith (code : Z) (reason : string).

Inductive conn_state : Type :=
| Open
| ClosedByUs (c : close_call)
| ClosedByPeer (code : Z) (reason : string).

(** One end of a connection: its state and the frames written to it so
    far, each given by the value that was handed to [json.dumps]. *)
Record ws : Type := {
  state : conn_state;
  sent : list Py.json
}.

Definition fresh : ws := {| state := Open; sent := [] |}.

(** The [closed] attribute. *)
Definition closed (w : ws) : bool :=
  match state w with
  | Open => false
  | _ => true
  end.

(** [await w.send(json.dumps(data))]: raises [ConnectionClosed] once the
    connection is closed. *)
Definition send (data : Py.json) (w : ws) : Py.res ws :=
  match state w with
  | Open => Py.Ok {| state := Open; sent := sent w ++ [data] |}
  | _ => Py.Raise Py.ConnectionClosed
  end.

(** [await w.close(...)]: the first close decides the close frame; closing a
    closed connection does nothing. *)
Definition close (c : close_call) (w : ws) : ws :=
  match state w with
  | Open => {| state := ClosedByUs c; sent := sent w |}
  | _ => w
  end.

(** The peer closes the connection with its own code and reason. *)
Definition peer_close (code : Z) (reason : string) (w : ws) : ws :=
  match state w with
  | Open => {| state := ClosedByPeer code reason; sent := sent w |}
  | _ => w
  end.

(** How [async for message in source] stops: the iterator ends quietly on a
    normal closure, or an exception comes out of it. *)
Inductive source_end : Type :=
| EndOfStream (code : Z) (reason : string)
| RaisedConnectionClosed (code : Z) (reason : string)
| RaisedOther.

(** What the servers print, kept where a property needs to observe it. *)
Inductive log_entry : Type :=
| ErrorProcessingMessage (e : Py.exn)
| ConnectionClosedLog (is_server : bool) (code : Z) (reason : string)
| UnexpectedError.

(** The part of the world one forwarding task acts on. *)
Record task_state : Type := {
  dst : ws;
  log : list log_entry
}.

(** The two sources of a relay session. *)
Inductive direction : Type :=
| FromClient
| FromServer.

(** One run of a relay session as the scheduler interleaves it: the frames in
    the order the two tasks take them up, then the source that ends first. *)
Record relay_trace : Type := {
  arrivals : list (direction * Py.frame);
  first_end : direction * source_end;
  (* frames the other task still takes up before its cancellation reaches it *)
  stragglers : list Py.frame
}.

Record session : Type := {
  client : ws;
  server : ws;
  slog : list log_entry
}.

(** What [websockets.connect] does when the [async with] block is entered. *)
Inductive connect_outcome : Type :=
| Connected
| ConnectRaisedClosed (code : Z) (reason : string)
| ConnectRaisedOther.

(** What [await asyncio.wait_for(client.recv(), timeout=10.0)] does. *)
Inductive first_recv : Type :=
| RecvMessage (message : Py.frame)
| RecvTimeout
| RecvRaised.

(** Both connections when [create_proxy] returns; there is no upstream
    connection when [websockets.connect] failed. *)
Record proxy_result : Type := {
  p_client : ws;
  p_server : option ws;
  p_log : list log_entry
}.

Definition source_closed (e : source_end) (w : ws) : ws :=
  match e with
  | EndOfStream code reason => peer_close code reason w
  | RaisedConnectionClosed code reason => peer_close code reason w
  | RaisedOther => w
  end.

End WS.

(** ** [server_gemini_api.py]: the direct-key variant *)

Module ServerGeminiApi.

Import Py WS.
Local Open Scope py_scope.

(** The value [DEFAULT_MODEL] takes when the environment does not set it. *)
Definition DEFAULT_MODEL_fallback : string :=
  "gemini-2.5-flash-native-audio-preview-12-2025".

(** The dict literal [model_mapping] of [map_vertex_ai_to_gemini_api_model]. *)
Definition model_mapping : list (string * string) :=
  [ ("gemini-live-2.5-flash-native-audio",
     "gemini-2.5-flash-native-audio-preview-12-2025");
    ("gemini-live-2.5-flash-preview-native-audio-09-2025",
     "gemini-2.5-flash-native-audio-preview-12-2025");
    ("gemini-2.0-flash-exp", "gemini-2.0-flash-exp");
    ("gemini-1.5-pro", "gemini-1.5-pro");
    ("gemini-1.5-flash", "gemini-1.5-flash") ].

Fixpoint mapping_get (key : string) (m : list (string * string)) : option string :=
  match m with
  | [] => None
  | (k, v) :: m' => if String.eqb k key then Some v else mapping_get key m'
  end.

Definition unsupported_setup_fields : list string := ["proactivity"].

Definition unsupported_gen_config_fields : list string := ["enable_affective_dialog"].

Section Config.

(** [DEFAULT_MODEL] is read from the environment when the module is loaded. *)
Variable DEFAULT_MODEL : string.

Definition map_vertex_ai_to_gemini_api_model (vertex_model_name : string) : string :=
  match mapping_get vertex_model_name model_mapping with
  | Some mapped_name => mapped_name
  | None =>
      if negb (PyStr.startswith vertex_model_name "gemini-live-")
      then vertex_model_name
      else DEFAULT_MODEL
  end.

(** The call [map_vertex_ai_to_gemini_api_model(model_name)] on whatever value
    [model_name] holds: a list or dict is unhashable ([TypeError] at the [in]
    test), any other non-string passes the [in] test and has no [startswith]. *)
Definition call_map (model_name : json) : res string :=
  match model_name with
  | JStr s => Ok (map_vertex_ai_to_gemini_api_model s)
  | JArr _ | JObj _ => Raise TypeError
  | JNull | JBool _ | JInt _ | JFloat _ => Raise AttributeError
  end.

(** The local variable [model_name] of [extract_model_name], for a string
    [model_uri]. *)
Definition model_name_of (model_uri : string) : string :=
  if PyStr.contains "/models/" model_uri
  then let parts := PyStr.split model_uri "/models/" in
       if (1 <? List.length parts)%nat then List.last parts EmptyString else model_uri
  else model_uri.

(** [if not m.startswith("models/"): m = f"models/{m}"] *)
Definition with_models_prefix (gemini_api_model : string) : string :=
  if negb (PyStr.startswith gemini_api_model "models/")
  then ("models/" ++ gemini_api_model)%string
  else gemini_api_model.

Definition extract_model_name (model_uri : json) : res string :=
  if negb (truthy model_uri) then Ok ("models/" ++ DEFAULT_MODEL)%string
  else
    has_models <- contains "/models/" model_uri ;;
    model_name <-
      (if has_models : bool
       then parts <- split model_uri "/models/" ;;
            Ok (if (1 <? List.length parts)%nat
                then JStr (List.last parts EmptyString)
                else model_uri)
       else Ok model_uri) ;;
    gemini_api_model <- call_map model_name ;;
    Ok (with_models_prefix gemini_api_model).

(** A message whose [setup] section is the dict [setup]. *)
Definition is_setup_message (data : json) (setup : dict) : Prop :=
  exists d, data = JObj d /\ dict_get "setup" d = Some (JObj setup).

(** [for field in fields: if field in obj: del obj[field]] *)
Fixpoint remove_fields (fields : list string) (obj : json) : res json :=
  match fields with
  | [] => Ok obj
  | field :: fields' =>
      present <- contains field obj ;;
      obj' <- (if present : bool then delitem obj field else Ok obj) ;;
      remove_fields fields' obj'
  end.

(** The body of [if transform_setup_message and not is_server and "setup" in
    data] in [proxy_task].  [setup] and [gen_config] alias parts of [data] in
    the source, so what is done to them is written back into the enclosing
    dict at the end of each block. *)
Definition transform_setup (data : json) : res json :=
  setup <- getitem data "setup" ;;
  has_model <- contains "model" setup ;;
  setup <-
    (if has_model : bool
     then original_model <- getitem setup "model" ;;
          model_name <- extract_model_name original_model ;;
          setitem setup "model" (JStr model_name)
     else Ok setup) ;;
  setup <- remove_fields unsupported_setup_fields setup ;;
  has_gen_config <- contains "generation_config" setup ;;
  setup <-
    (if has_gen_config : bool
     then gen_config <- getitem setup "generation_config" ;;
          gen_config <- remove_fields unsupported_gen_config_fields gen_config ;;
          setitem setup "generation_config" gen_config
     else Ok setup) ;;
  setitem data "setup" setup.

(** The value [data] holds when the inner [try] reaches [json.dumps(data)]. *)
Definition prepare (is_server transform_setup_message : bool) (data : json) : res json :=
  if transform_setup_message && negb is_server
  then has_setup <- contains "setup" data ;;
       if has_setup : bool then transform_setup data else Ok data
  else Ok data.

(** The inner [try] of the loop, for one message. *)
Definition process_message (is_server transform_setup_message : bool)
    (message : frame) (destination : ws) : res ws :=
  data <- loads message ;;
  data <- prepare is_server transform_setup_message data ;;
  send data destination.

(** One iteration of [async for]: the inner [except Exception] prints and the
    loop goes on. *)
Definition task_step (is_server transform_setup_message : bool)
    (message : frame) (st : task_state) : task_state :=
  match process_message is_server transform_setup_message message (dst st) with
  | Ok d => {| dst := d; log := log st |}
  | Raise e => {| dst := dst st; log := log st ++ [ErrorProcessingMessage e] |}
  end.

Fixpoint forward (is_server transform_setup_message : bool)
    (messages : list frame) (st : task_state) : task_state :=
  match messages with
  | [] => st
  | message :: rest =>
      forward is_server transform_setup_message rest
        (task_step is_server transform_setup_message message st)
  end.

(** The end of the loop: the outer handlers print, [finally] closes the
    destination. *)
Definition task_finish (is_server : bool) (e : source_end) (st : task_state) : task_state :=
  {| dst := close CloseDefault (dst st);
     log := match e with
            | EndOfStream _ _ => log st
            | RaisedConnectionClosed code reason =>
                log st ++ [ConnectionClosedLog is_server code reason]
            | RaisedOther => log st ++ [UnexpectedError]
            end |}.

(** [proxy_task] run on a source that delivers [messages] and then ends. *)
Definition proxy_task (is_server transform_setup_message : bool)
    (messages : list frame) (e : source_end) (st : task_state) : task_state :=
  task_finish is_server e (forward is_server transform_setup_message messages st).

(** The two tasks of [create_proxy], one frame at a time. *)
Fixpoint relay (arr : list (direction * frame)) (s : session) : session :=
  match arr with
  | [] => s
  | (FromClient, message) :: rest =>
      let st := task_step false true message {| dst := server s; log := slog s |} in
      relay rest {| client := client s; server := dst st; slog := log st |}
  | (FromServer, message) :: rest =>
      let st := task_step true false message {| dst := client s; log := slog s |} in
      relay rest {| client := dst st; server := server s; slog := log st |}
  end.

(** [create_proxy], from the moment [websockets.connect] answers.  After
    [asyncio.wait] returns, the task that is still pending is cancelled:
    [CancelledError] is no [Exception], so only its [finally] runs. *)
Definition create_proxy (client_websocket : ws) (outcome : connect_outcome)
    (trace : relay_trace) : proxy_result :=
  match outcome with
  | Connected =>
      let s := relay (arrivals trace)
                 {| client := client_websocket; server := fresh; slog := [] |} in
      let s :=
        match first_end trace with
        | (FromServer, e) =>
            (* server_to_client_task completes *)
            let done := task_finish true e {| dst := client s; log := slog s |} in
            (* client_to_server_task: late frames, then cancellation *)
            let pending := forward false true (stragglers trace)
                             {| dst := source_closed e (server s); log := log done |} in
            {| client := dst done;
               server := close CloseDefault (dst pending);
               slog := log pending |}
        | (FromClient, e) =>
            (* client_to_server_task completes *)
            let done := task_finish false e {| dst := server s; log := slog s |} in
            (* server_to_client_task: late frames, then cancellation *)
            let pending := forward true false (stragglers trace)
                             {| dst := source_closed e (client s); log := log done |} in
            {| client := close CloseDefault (dst pending);
               server := dst done;
               slog := log pending |}
        end in
      (* "Close connections" *)
      {| p_client := close CloseDefault (client s);
         p_server := Some (close CloseDefault (server s));
         p_log := slog s |}
  | ConnectRaisedClosed code reason =>
      {| p_client := close (CloseWith code reason) client_websocket;
         p_server := None;
         p_log := [] |}
  | ConnectRaisedOther =>
      {| p_client := close (CloseWith 1008 "Upstream connection failed") client_websocket;
         p_server := None;
         p_log := [] |}
  end.

(** [GEMINI_API_KEY] is read from the environment when the module is loaded. *)
Variable GEMINI_API_KEY : string.

(** What one client connection ends in: the client connection, the URL
    handed to [create_proxy] if it was called, the upstream connection. *)
Record handled : Type := {
  h_client : ws;
  h_service_url : option string;
  h_server : option ws;
  h_log : list log_entry
}.

(** The f-string that builds [service_url]. *)
Definition gemini_service_url : string :=
  ("wss://generativelanguage.googleapis.com/ws/google.ai.generativelanguage.v1beta.GenerativeService.BidiGenerateContent?key="
   ++ GEMINI_API_KEY)%string.

(** A handler that ends by closing the client, without any upstream. *)
Definition refuse (c : close_call) (client_websocket : ws) : handled :=
  {| h_client := close c client_websocket;
     h_service_url := None;
     h_server := None;
     h_log := [] |}.

(** [handle_websocket_client]: the first message is only parsed, never
    read; [try: close(1011, ...) except: pass] closes when there is
    something to close. *)
Definition handle_websocket_client (client_websocket : ws) (first : first_recv)
    (outcome : connect_outcome) (trace : relay_trace) : handled :=
  match first with
  | RecvTimeout => refuse (CloseWith 1008 "Timeout") client_websocket
  | RecvRaised => refuse (CloseWith 1011 "Internal error") client_websocket
  | RecvMessage service_setup_message =>
      match loads service_setup_message with
      | Raise _ => refuse (CloseWith 1008 "Invalid JSON") client_websocket
      | Ok _ =>
          if negb (truthy (JStr GEMINI_API_KEY))
          then refuse (CloseWith 1008 "API key required") client_websocket
          else
            let r := create_proxy client_websocket outcome trace in
            {| h_client := p_client r;
               h_service_url := Some gemini_service_url;
               h_server := p_server r;
               h_log := p_log r |}
      end
  end.

End Config.

End ServerGeminiApi.

(** ** [server.py]: the managed variant *)

Module Server.

Import Py WS.
Local Open Scope py_scope.

(** The arguments [create_proxy] hands to [websockets.connect]. *)
Record connect_request : Type := {
  service_url : json;
  bearer_token : json
}.

(** What one client connection ends in. *)
Record handled : Type := {
  h_client : ws;
  h_connect : option connect_request;
  h_server : option ws;
  h_log : list log_entry
}.

Section Config.

(** What [generate_access_token()] returns: [creds.token], or [None] after
    any failure of the credential provider. *)
Variable generate_access_token : option string.

Definition process_message (message : frame) (destination : ws) : res ws :=
  data <- loads message ;;
  send data destination.

Definition task_step (message : frame) (st : task_state) : task_state :=
  match process_message message (dst st) with
  | Ok d => {| dst := d; log := log st |}
  | Raise e => {| dst := dst st; log := log st ++ [ErrorProcessingMessage e] |}
  end.

Fixpoint forward (messages : list frame) (st : task_state) : task_state :=
  match messages with
  | [] => st
  | message :: rest => forward rest (task_step message st)
  end.

Definition task_finish (is_server : bool) (e : source_end) (st : task_state) : task_state :=
  {| dst := close CloseDefault (dst st);
     log := match e with
            | EndOfStream _ _ => log st
            | RaisedConnectionClosed code reason =>
                log st ++ [ConnectionClosedLog is_server code reason]
            | RaisedOther => log st ++ [UnexpectedError]
            end |}.

(** [proxy_task] run on a source that delivers [messages] and then ends. *)
Definition proxy_task (is_server : bool) (messages : list frame)
    (e : source_end) (st : task_state) : task_state :=
  task_finish is_server e (forward messages st).

Fixpoint relay (arr : list (direction * frame)) (s : session) : session :=
  match arr with
  | [] => s
  | (FromClient, message) :: rest =>
      let st := task_step message {| dst := server s; log := slog s |} in
      relay rest {| client := client s; server := dst st; slog := log st |}
  | (FromServer, message) :: rest =>
      let st := task_step message {| dst := client s; log := slog s |} in
      relay rest {| client := dst st; server := server s; slog := log st |}
  end.

(** [if not client_websocket.closed: await client_websocket.close(...)] *)
Definition close_unless_closed (c : close_call) (w : ws) : ws :=
  if negb (closed w) then close c w else w.

Definition create_proxy (client_websocket : ws) (outcome : connect_outcome)
    (trace : relay_trace) : proxy_result :=
  match outcome with
  | Connected =>
      let s := relay (arrivals trace)
                 {| client := client_websocket; server := fresh; slog := [] |} in
      let s :=
        match first_end trace with
        | (FromServer, e) =>
            let done := task_finish true e {| dst := client s; log := slog s |} in
            let pending := forward (stragglers trace)
                             {| dst := source_closed e (server s); log := log done |} in
            {| client := dst done;
               server := close CloseDefault (dst pending);
               slog := log pending |}
        | (FromClient, e) =>
            let done := task_finish false e {| dst := server s; log := slog s |} in
            let pending := forward (stragglers trace)
                             {| dst := source_closed e (client s); log := log done |} in
            {| client := close CloseDefault (dst pending);
               server := dst done;
               slog := log pending |}
        end in
      {| p_client := close CloseDefault (client s);
         p_server := Some (close CloseDefault (server s));
         p_log := slog s |}
  | ConnectRaisedClosed code reason =>
      {| p_client := close_unless_closed (CloseWith code reason) client_websocket;
         p_server := None;
         p_log := [] |}
  | ConnectRaisedOther =>
      {| p_client := close_unless_closed (CloseWith 1008 "Upstream connection failed")
                       client_websocket;
         p_server := None;
         p_log := [] |}
  end.

(** A handler that ends by closing the client, without any upstream. *)
Definition refuse (c : close_call) (client_websocket : ws) : handled :=
  {| h_client := close c client_websocket;
     h_connect := None;
     h_server := None;
     h_log := [] |}.

(** The last [except Exception] of [handle_websocket_client]. *)
Definition internal_error (client_websocket : ws) : handled :=
  {| h_client := close_unless_closed (CloseWith 1011 "Internal error") client_websocket;
     h_connect := None;
     h_server := None;
     h_log := [] |}.

(** The token the handler goes on with: the client's own when it is truthy,
    else a generated one; [None] when generation gave nothing usable. *)
Definition resolve_token (bearer_token : json) : option json :=
  if negb (truthy bearer_token)
  then match generate_access_token with
       | Some token => if negb (truthy (JStr token)) then None else Some (JStr token)
       | None => None
       end
  else Some bearer_token.

Definition handle_websocket_client (client_websocket : ws) (first : first_recv)
    (outcome : connect_outcome) (trace : relay_trace) : handled :=
  match first with
  | RecvTimeout => refuse (CloseWith 1008 "Timeout") client_websocket
  | RecvRaised => internal_error client_websocket
  | RecvMessage service_setup_message =>
      match loads service_setup_message with
      | Raise _ => refuse (CloseWith 1008 "Invalid JSON") client_websocket
      | Ok service_setup_message_data =>
          match (bearer_token <- get service_setup_message_data "bearer_token" ;;
                 service_url <- get service_setup_message_data "service_url" ;;
                 Ok (bearer_token, service_url)) with
          | Raise _ => internal_error client_websocket
          | Ok (bearer_token, service_url) =>
              match resolve_token bearer_token with
              | None => refuse (CloseWith 1008 "Authentication failed") client_websocket
              | Some bearer_token =>
                  if negb (truthy service_url)
                  then refuse (CloseWith 1008 "Service URL is required") client_websocket
                  else
                    let r := create_proxy client_websocket outcome trace in
                    {| h_client := p_client r;
                       h_connect := Some {| service_url := service_url;
                                            bearer_token := bearer_token |};
                       h_server := p_server r;
                       h_log := p_log r |}
              end
          end
      end
  end.

End Config.

End Server.

(** ** Sample messages, for the instances at the end *)

Module Samples.

Import Py.

(** A setup section as the demo client of the managed variant sends it. *)
Definition vertex_setup : dict :=
  [("model",
    JStr "projects/p/locations/us-central1/publishers/google/models/gemini-live-2.5-flash-native-audio");
   ("proactivity", JObj [("proactive_audio", JBool true)]);
   ("generation_config",
    JObj [("temperature", JInt 1); ("enable_affective_dialog", JBool true)])].



End Samples.

(** * Properties *)

(** ** Facts on Python strings *)

Section StringFacts.

Import PyStr.

Lemma prefix_app (p t : string) : String.prefix p (p ++ t)%string = true.
Proof.
  induction p as [|c p IH]; simpl.
  - destruct t; reflexivity.
  - destruct (ascii_dec c c) as [_|N]; [exact IH | now elim N].
Qed.

Lemma contains_prefix (sub s : string) :
  String.prefix sub s = true -> contains sub s = true.
Proof. intros H. destruct s; cbn [contains]; rewrite H; reflexivity. Qed.

Lemma contains_cons_false (sub : string) (c : ascii) (s : string) :
  contains sub (String c s) = false ->
  String.prefix sub (String c s) = false /\ contains sub s = false.
Proof.
  cbn [contains]. intros H. apply orb_false_iff in H. exact H.
Qed.

Lemma contains_app_l (sub p s : string) :
  contains sub s = true -> contains sub (p ++ s)%string = true.
Proof.
  intros H. induction p as [|c p IH]; [exact H|].
  cbn [append contains]. rewrite IH. apply orb_true_r.
Qed.

Lemma split_from_nonempty (sep s : string) (k : nat) : split_from sep s k <> [].
Proof.
  revert k. induction s as [|c s IH]; intros k; cbn [split_from].
  - discriminate.
  - destruct k as [|k]; [|apply IH].
    destruct (String.prefix sep (String c s)); [discriminate|].
    destruct (split_from sep s 0); discriminate.
Qed.

(** Without an occurrence of the separator there is one piece, the string. *)
Lemma split_from_absent (sep s : string) :
  contains sep s = false -> split_from sep s 0 = [s].
Proof.
  induction s as [|c s IH]; intros H; [reflexivity|].
  apply contains_cons_false in H as [Hp Hc].
  cbn [split_from]. rewrite Hp, (IH Hc). reflexivity.
Qed.

(** One piece only: it is the whole string. *)
Lemma split_from_single (sep s x : string) :
  split_from sep s 0 = [x] -> x = s.
Proof.
  revert x. induction s as [|c s IH]; intros x; cbn [split_from].
  - intros [= <-]. reflexivity.
  - destruct (String.prefix sep (String c s)).
    + intros [= <- H]. now apply split_from_nonempty in H.
    + destruct (split_from sep s 0) as [|piece rest] eqn:E.
      * now apply split_from_nonempty in E.
      * intros [= <- ->]. now rewrite (IH piece eq_refl).
Qed.

(** One piece only: the separator does not occur. *)
Lemma split_from_single_absent (sep s x : string) :
  sep <> EmptyString -> split_from sep s 0 = [x] -> contains sep s = false.
Proof.
  intros Hsep. revert x. induction s as [|c s IH]; intros x; cbn [split_from contains].
  - intros _. destruct sep; [congruence | reflexivity].
  - destruct (String.prefix sep (String c s)).
    + intros [= <- H]. now apply split_from_nonempty in H.
    + destruct (split_from sep s 0) as [|piece rest] eqn:E.
      * now apply split_from_nonempty in E.
      * intros [= <- ->]. now rewrite (IH piece eq_refl).
Qed.

Lemma last_cons_nonempty {A : Type} (x : A) (l : list A) (d : A) :
  l <> [] -> last (x :: l) d = last l d.
Proof. destruct l; [congruence | reflexivity]. Qed.

(** The last piece of a split holds no occurrence of the separator. *)
Lemma split_from_last_clean (sep s : string) (k : nat) :
  sep <> EmptyString ->
  contains sep (last (split_from sep s k) EmptyString) = false.
Proof.
  intros Hsep. revert k. induction s as [|c s IH]; intros k; cbn [split_from].
  - cbn. destruct sep; [congruence | reflexivity].
  - destruct k as [|k]; [|apply IH].
    destruct (String.prefix sep (String c s)) eqn:Hp.
    + rewrite last_cons_nonempty by apply split_from_nonempty. apply IH.
    + destruct (split_from sep s 0) as [|piece rest] eqn:E.
      * now apply split_from_nonempty in E.
      * destruct rest as [|r rest].
        -- pose proof (split_from_single _ _ _ E) as ->.
           specialize (IH 0). rewrite E in IH. cbn [last] in IH |- *.
           cbn [contains]. rewrite Hp, IH. reflexivity.
        -- specialize (IH 0). rewrite E in IH. exact IH.
Qed.

(** [str.split] on the shapes a model field takes. *)
Example split_resource_path :
  split "projects/p/locations/r/publishers/google/models/m" "/models/"
  = ["projects/p/locations/r/publishers/google"; "m"].
Proof. reflexivity. Qed.

Example split_trailing_separator : split "a/models/" "/models/" = ["a"; ""].
Proof. reflexivity. Qed.

Example split_two_separators : split "a/models/b/models/c" "/models/" = ["a"; "b"; "c"].
Proof. reflexivity. Qed.

Example split_overlapping_separators :
  split "/models/models/x" "/models/" = [""; "models/x"].
Proof. reflexivity. Qed.

Example split_three_overlapping :
  split "/models/models/models/x" "/models/" = [""; "models"; "x"].
Proof. reflexivity. Qed.

Example split_no_separator : split "gemini-1.5-pro" "/models/" = ["gemini-1.5-pro"].
Proof. reflexivity. Qed.

End StringFacts.

(** ** The separator ["/models/"] *)

(** Decide the character tests of a [String.prefix] hypothesis. *)
Ltac prefix_chars H :=
  repeat (cbn -[ascii_dec] in H;
          match type of H with
          | context [ascii_dec ?a ?b] =>
              let E := fresh "E" in
              destruct (ascii_dec a b) as [E|E];
              [ first [discriminate E | subst] | try discriminate H ]
          end).

Section ModelsSeparator.

Import PyStr.

Lemma models_prepend_clean (t : string) :
  contains "/models/" t = false ->
  startswith t "models/" = false ->
  contains "/models/" ("models/" ++ t)%string = false.
Proof.
  unfold startswith. intros Hc Hp.
  cbn [append]. do 6 (cbn [contains]; rewrite orb_false_iff; split; [reflexivity|]).
  cbn [contains]. rewrite Hc, orb_false_r.
  cbn. destruct t; [reflexivity|]. exact Hp.
Qed.

(** A separator that starts inside [p] and runs into the one that follows [p]
    can only be the overlap of ["/models"] with the leading ["/"]. *)
Lemma models_no_short_overlap (p t : string) :
  String.prefix "/models/" (p ++ "/models/" ++ t)%string = true ->
  p <> EmptyString ->
  String.eqb p "/models" = false ->
  (8 <= String.length p)%nat.
Proof.
  intros Hpre Hne Heq.
  destruct p as [|c0 p]; [congruence|].
  do 7 (destruct p as [|? p];
        [ exfalso; prefix_chars Hpre; first [discriminate Hpre | discriminate Heq] | ]).
  cbn [String.length]. lia.
Qed.

Lemma split_from_skip (sp q s : string) :
  split_from sp (q ++ s)%string (String.length q) = split_from sp s 0.
Proof.
  induction q as [|c q IH]; [reflexivity|].
  cbn [append String.length split_from]. exact IH.
Qed.

Lemma endswith_cons_false (c : ascii) (p s : string) :
  endswith (String c p) s = false ->
  String.eqb (String c p) s = false /\ endswith p s = false.
Proof. cbn [endswith]. intros H. apply orb_false_iff in H. exact H. Qed.

(** Splitting [p ++ "/models/" ++ t]: when [t] holds no separator and the
    separator before [t] does not overlap an earlier one, [t] is the last
    piece and it is not the only one. *)
Lemma split_from_keeps_suffix (p t : string) (k : nat) :
  contains "/models/" t = false ->
  endswith p "/models" = false ->
  (k <= String.length p)%nat ->
  exists front, front <> [] /\
    split_from "/models/" (p ++ "/models/" ++ t)%string k = (front ++ [t])%list.
Proof.
  intros Ht. revert k. induction p as [|c p IH]; intros k Hend Hk.
  - assert (k = 0%nat) as -> by (cbn in Hk; lia).
    exists [EmptyString]. split; [discriminate|].
    change (EmptyString ++ "/models/" ++ t)%string
      with (String "/" ("models/" ++ t))%string.
    cbn [split_from].
    replace (String.prefix "/models/" (String "/" ("models/" ++ t)))
      with true by (symmetry; apply (prefix_app "/models/" t)).
    change (String.length "/models/" - 1)%nat with (String.length "models/").
    rewrite split_from_skip, (split_from_absent _ _ Ht). reflexivity.
  - apply endswith_cons_false in Hend as [Heq Hend].
    change (String c p ++ "/models/" ++ t)%string
      with (String c (p ++ "/models/" ++ t))%string.
    cbn [split_from].
    destruct k as [|k].
    + destruct (String.prefix "/models/" (String c (p ++ "/models/" ++ t))) eqn:Hp.
      * assert (8 <= String.length (String c p))%nat as Hlen.
        { apply (models_no_short_overlap (String c p) t); [exact Hp | discriminate | exact Heq]. }
        destruct (IH 7%nat Hend) as (front & Hne & E).
        { cbn [String.length] in Hlen. lia. }
        exists (EmptyString :: front). split; [discriminate|].
        change (String.length "/models/" - 1)%nat with 7%nat.
        rewrite E. reflexivity.
      * destruct (IH 0%nat Hend) as (front & Hne & E); [lia|].
        rewrite E. destruct front as [|f front]; [congruence|].
        exists (String c f :: front). split; [discriminate | reflexivity].
    + destruct (IH k Hend) as (front & Hne & E).
      { cbn [String.length] in Hk. lia. }
      exists front. split; assumption.
Qed.

End ModelsSeparator.

(** ** Facts on dictionaries *)

Section DictFacts.

Import Py.

Lemma dict_has_get (k : string) (d : dict) :
  dict_has k d = match dict_get k d with Some _ => true | None => false end.
Proof.
  induction d as [|[k' v] d IH]; [reflexivity|].
  cbn [dict_has dict_get]. destruct (String.eqb k' k); [reflexivity | exact IH].
Qed.

Lemma dict_get_set_same (k : string) (v : json) (d : dict) :
  dict_get k (dict_set k v d) = Some v.
Proof.
  induction d as [|[k' w] d IH]; cbn [dict_set dict_get].
  - now rewrite String.eqb_refl.
  - destruct (String.eqb k' k) eqn:E; cbn [dict_get]; rewrite E; [reflexivity | exact IH].
Qed.

Lemma dict_get_set_other (k k' : string) (v : json) (d : dict) :
  k <> k' -> dict_get k' (dict_set k v d) = dict_get k' d.
Proof.
  intros N. induction d as [|[k0 w] d IH]; cbn [dict_set dict_get].
  - apply String.eqb_neq in N. now rewrite N.
  - destruct (String.eqb k0 k) eqn:E; cbn [dict_get].
    + apply String.eqb_eq in E. subst k0.
      apply String.eqb_neq in N. now rewrite N.
    + destruct (String.eqb k0 k'); [reflexivity | exact IH].
Qed.

Lemma dict_get_del_same (k : string) (d : dict) : dict_get k (dict_del k d) = None.
Proof.
  induction d as [|[k0 w] d IH]; [reflexivity|].
  cbn [dict_del]. destruct (String.eqb k0 k) eqn:E; [exact IH|].
  cbn [dict_get]. now rewrite E.
Qed.

Lemma dict_get_del_other (k k' : string) (d : dict) :
  k <> k' -> dict_get k' (dict_del k d) = dict_get k' d.
Proof.
  intros N. induction d as [|[k0 w] d IH]; [reflexivity|].
  cbn [dict_del dict_get]. destruct (String.eqb k0 k) eqn:E.
  - apply String.eqb_eq in E. subst k0.
    apply String.eqb_neq in N. now rewrite N.
  - cbn [dict_get]. destruct (String.eqb k0 k'); [reflexivity | exact IH].
Qed.

(** Storing the value a key already has changes nothing. *)
Lemma dict_set_same (k : string) (v : json) (d : dict) :
  dict_get k d = Some v -> dict_set k v d = d.
Proof.
  induction d as [|[k0 w] d IH]; cbn [dict_get dict_set]; [discriminate|].
  destruct (String.eqb k0 k); [now intros [= ->] | intros H; now rewrite IH].
Qed.

Lemma dict_del_absent (k : string) (d : dict) :
  dict_get k d = None -> dict_del k d = d.
Proof.
  induction d as [|[k0 w] d IH]; cbn [dict_get dict_del]; [reflexivity|].
  destruct (String.eqb k0 k); [discriminate | intros H; now rewrite IH].
Qed.

Lemma keys_set_present (k : string) (v : json) (d : dict) :
  dict_get k d <> None -> keys (dict_set k v d) = keys d.
Proof.
  unfold keys. induction d as [|[k0 w] d IH]; cbn [dict_get dict_set]; [congruence|].
  destruct (String.eqb k0 k); [reflexivity | intros H; cbn [map fst]; now rewrite IH].
Qed.

Lemma keys_del (k : string) (d : dict) :
  keys (dict_del k d) = filter (fun x => negb (String.eqb x k)) (keys d).
Proof.
  unfold keys. induction d as [|[k0 w] d IH]; [reflexivity|].
  cbn [dict_del map fst filter]. destruct (String.eqb k0 k); cbn [negb map fst]; now rewrite IH.
Qed.

Lemma dict_wf_set (k : string) (v : json) (d : dict) :
  dict_get k d <> None -> dict_wf d -> dict_wf (dict_set k v d).
Proof. unfold dict_wf. intros H W. now rewrite keys_set_present. Qed.

Lemma dict_wf_del (k : string) (d : dict) : dict_wf d -> dict_wf (dict_del k d).
Proof.
  unfold dict_wf. intros W. rewrite keys_del.
  now apply NoDup_filter.
Qed.

End DictFacts.

(** ** [server_gemini_api.py]: model names *)

Section ModelNames.

Import Py PyStr ServerGeminiApi.
Local Open Scope py_scope.

Variable DEFAULT_MODEL : string.

Local Abbreviation map_model := (map_vertex_ai_to_gemini_api_model DEFAULT_MODEL).
Local Abbreviation extract := (extract_model_name DEFAULT_MODEL).

Lemma mapping_get_in (k v : string) :
  mapping_get k model_mapping = Some v -> In (k, v) model_mapping.
Proof.
  unfold model_mapping. cbn [mapping_get].
  repeat match goal with
         | |- context [String.eqb ?a k] =>
             destruct (String.eqb a k) eqn:?E;
             [ apply String.eqb_eq in E; subst k; intros [= <-]; cbn; tauto | clear E ]
         end.
  discriminate.
Qed.


(** No table key carries the namespace prefix. *)
Lemma mapping_get_prefixed (t : string) :
  mapping_get ("models/" ++ t) model_mapping = None.
Proof. reflexivity. Qed.

(** The name handed to the mapping holds no ["/models/"] segment. *)
Lemma model_name_of_clean (m : string) :
  contains "/models/" (model_name_of m) = false.
Proof.
  unfold model_name_of. destruct (contains "/models/" m) eqn:E; [|exact E].
  destruct (split m "/models/") as [|x [|y l]] eqn:S; unfold split in S.
  - now apply split_from_nonempty in S.
  - apply split_from_single_absent in S; [congruence | discriminate].
  - change (1 <? length (x :: y :: l))%nat with true. cbv iota.
    rewrite <- S. apply split_from_last_clean. discriminate.
Qed.

(** [extract_model_name] on a non-empty string. *)
Lemma extract_model_name_str (m : string) :
  m <> EmptyString ->
  extract (JStr m) = Ok (with_models_prefix (map_model (model_name_of m))).
Proof.
  intros Hm. unfold extract_model_name, model_name_of.
  assert (truthy (JStr m) = true) as ->.
  { cbn. destruct m; [congruence | reflexivity]. }
  cbn [negb Py.contains Py.bind Py.split].
  destruct (PyStr.contains "/models/" m); [|reflexivity].
  cbn [Py.bind]. destruct (1 <? length (split m "/models/"))%nat; reflexivity.
Qed.

(** [extract_model_name] on a falsy value: [None], [False], [0], [0.0], the
    empty string, list or dict. *)
Lemma extract_model_name_falsy (x : json) :
  truthy x = false -> extract x = Ok ("models/" ++ DEFAULT_MODEL)%string.
Proof. intros H. unfold extract_model_name. now rewrite H. Qed.

(** Anything else makes it raise. *)
Lemma extract_model_name_raises (x : json) :
  truthy x = true -> (forall m, x <> JStr m) -> exists e, extract x = Raise e.
Proof.
  intros T N. unfold extract_model_name. rewrite T. cbn [negb].
  destruct x as [| b | n | f | m | l | d]; cbn [Py.contains Py.bind];
    try (eexists; reflexivity).
  - now elim (N m).
  - destruct (existsb _ l); cbn; eexists; reflexivity.
  - destruct (dict_has _ d); cbn; eexists; reflexivity.
Qed.

Lemma with_models_prefix_starts (g : string) :
  startswith (with_models_prefix g) "models/" = true.
Proof.
  unfold with_models_prefix. destruct (startswith g "models/") eqn:E; cbn [negb].
  - exact E.
  - apply (prefix_app "models/" g).
Qed.

Lemma with_models_prefix_idem (g : string) :
  with_models_prefix (with_models_prefix g) = with_models_prefix g.
Proof.
  unfold with_models_prefix at 1. now rewrite with_models_prefix_starts.
Qed.

(** A name under the namespace prefix is mapped to itself. *)
Lemma map_model_prefixed (t : string) :
  map_model ("models/" ++ t) = ("models/" ++ t)%string.
Proof. reflexivity. Qed.

(** A name without the managed-variant prefix is mapped to itself, with or
    without a table entry. *)
Lemma map_model_unmanaged (name : string) :
  startswith name "gemini-live-" = false -> map_model name = name.
Proof.
  intros H. unfold map_vertex_ai_to_gemini_api_model.
  destruct (mapping_get name model_mapping) as [v|] eqn:E.
  - apply mapping_get_in in E. cbn in E.
    repeat (destruct E as [[= <- <-]|E]; [first [reflexivity | discriminate H]|]).
    contradiction.
  - now rewrite H.
Qed.

Lemma map_model_unknown (name : string) :
  startswith name "gemini-live-" = true ->
  mapping_get name model_mapping = None ->
  map_model name = DEFAULT_MODEL.
Proof. intros H E. unfold map_vertex_ai_to_gemini_api_model. now rewrite E, H. Qed.

Lemma map_model_known (name v : string) :
  mapping_get name model_mapping = Some v -> map_model name = v.
Proof. intros E. unfold map_vertex_ai_to_gemini_api_model. now rewrite E. Qed.

Lemma prefix_decompose (p s : string) :
  String.prefix p s = true -> exists t, s = (p ++ t)%string.
Proof.
  revert s. induction p as [|c p IH]; intros s H.
  - exists s. reflexivity.
  - destruct s as [|c' s]; [discriminate H|].
    cbn -[ascii_dec] in H. destruct (ascii_dec c c') as [<-|]; [|discriminate H].
    destruct (IH s H) as [t ->]. exists t. reflexivity.
Qed.

(** A result that is already under the prefix and holds no ["/models/"]
    segment is left alone by a second extraction. *)
Lemma extract_prefixed_clean (t : string) :
  contains "/models/" ("models/" ++ t) = false ->
  extract (JStr ("models/" ++ t)) = Ok ("models/" ++ t)%string.
Proof.
  intros C. rewrite extract_model_name_str by discriminate.
  unfold model_name_of. rewrite C, map_model_prefixed.
  unfold with_models_prefix, startswith. now rewrite prefix_app.
Qed.

Section BareDefault.

(** The configured default is a bare model name, as the built-in one is. *)
Hypothesis default_unprefixed : startswith DEFAULT_MODEL "models/" = false.
Hypothesis default_clean : contains "/models/" DEFAULT_MODEL = false.

Lemma extract_stable_name (name : string) :
  contains "/models/" name = false ->
  extract (JStr (with_models_prefix (map_model name)))
  = Ok (with_models_prefix (map_model name)).
Proof.
  intros C. unfold map_vertex_ai_to_gemini_api_model.
  destruct (mapping_get name model_mapping) as [v|] eqn:E.
  - apply mapping_get_in in E. cbn in E.
    repeat (destruct E as [[= <- <-]|E]; [reflexivity|]). contradiction.
  - destruct (startswith name "gemini-live-"); cbn [negb].
    + unfold with_models_prefix. rewrite default_unprefixed. cbn [negb].
      apply extract_prefixed_clean. now apply models_prepend_clean.
    + unfold with_models_prefix. destruct (startswith name "models/") eqn:P; cbn [negb].
      * destruct (prefix_decompose _ _ P) as [t ->]. now apply extract_prefixed_clean.
      * apply extract_prefixed_clean. now apply models_prepend_clean.
Qed.

(** Whatever [extract_model_name] returns, it returns again on that result. *)
Lemma extract_model_name_fixed (x : json) (r : string) :
  extract x = Ok r -> extract (JStr r) = Ok r.
Proof.
  intros H. destruct (truthy x) eqn:T.
  - destruct x as [| b | n | f | m | l | d];
      try (destruct (extract_model_name_raises _ T) as [e He];
           [ intros ?; discriminate | congruence ]).
    rewrite extract_model_name_str in H.
    + injection H as <-. apply extract_stable_name, model_name_of_clean.
    + intros ->. discriminate T.
  - rewrite (extract_model_name_falsy _ T) in H. injection H as <-.
    apply extract_prefixed_clean. now apply models_prepend_clean.
Qed.

End BareDefault.

End ModelNames.

(** ** [server_gemini_api.py]: the rewrite of a setup message *)

Section SetupRewrite.

Import Py ServerGeminiApi.
Local Open Scope py_scope.

Variable DEFAULT_MODEL : string.

Local Abbreviation extract := (extract_model_name DEFAULT_MODEL).
Local Abbreviation transform := (transform_setup DEFAULT_MODEL).
Local Abbreviation prepare_c2s := (prepare DEFAULT_MODEL false true).

Lemma remove_field_obj (f : string) (g : dict) :
  remove_fields [f] (JObj g) = Ok (JObj (dict_del f g)).
Proof.
  cbn [remove_fields Py.contains Py.bind Py.delitem].
  rewrite dict_has_get. destruct (dict_get f g) eqn:E; cbn [Py.bind]; [reflexivity|].
  now rewrite dict_del_absent.
Qed.

(** Outside dicts a removal that succeeds has found nothing to remove. *)
Lemma remove_field_other (f : string) (x y : json) :
  (forall g, x <> JObj g) -> remove_fields [f] x = Ok y -> y = x.
Proof.
  intros N. destruct x as [| b | n | fl | t | l | g]; cbn [remove_fields Py.contains Py.bind];
    try discriminate.
  - destruct (PyStr.contains f t); cbn; [discriminate | now intros [= <-]].
  - destruct (existsb _ l); cbn; [discriminate | now intros [= <-]].
  - now elim (N g).
Qed.

Lemma remove_field_fixed (f : string) (x y : json) :
  remove_fields [f] x = Ok y -> remove_fields [f] y = Ok y.
Proof.
  intros H. destruct (match x with JObj _ => true | _ => false end) eqn:Shape.
  - destruct x as [| | | | | | g]; try discriminate Shape.
    rewrite remove_field_obj in H. injection H as <-.
    rewrite remove_field_obj. now rewrite (dict_del_absent f) by apply dict_get_del_same.
  - assert (y = x) as ->; [|exact H].
    eapply remove_field_other; [|exact H]. intros g ->. discriminate Shape.
Qed.

(** The three blocks of the rewrite, on a message whose setup section is a
    dict: the model name, the setup fields, the generation-config fields. *)
Lemma transform_setup_obj (d s : dict) :
  dict_get "setup" d = Some (JObj s) ->
  transform (JObj d) =
    (s1 <- match dict_get "model" s with
           | Some original_model =>
               model_name <- extract original_model ;;
               Ok (dict_set "model" (JStr model_name) s)
           | None => Ok s
           end ;;
     s3 <- match dict_get "generation_config" s with
           | Some gen_config =>
               gen_config' <- remove_fields ["enable_affective_dialog"] gen_config ;;
               Ok (dict_set "generation_config" gen_config' (dict_del "proactivity" s1))
           | None => Ok (dict_del "proactivity" s1)
           end ;;
     Ok (JObj (dict_set "setup" (JObj s3) d))).
Proof.
  intros Hs. unfold transform_setup.
  cbn [Py.getitem]. rewrite Hs. cbn [Py.bind Py.contains].
  rewrite dict_has_get.
  assert (forall s1 : dict, dict_get "model" s1 = dict_get "model" s \/ True ->
            dict_get "generation_config" s1 = dict_get "generation_config" s ->
            (setup <- remove_fields unsupported_setup_fields (JObj s1) ;;
             has_gen_config <- Py.contains "generation_config" setup ;;
             setup0 <- (if has_gen_config : bool
                        then gen_config <- getitem setup "generation_config" ;;
                             gen_config0 <- remove_fields unsupported_gen_config_fields gen_config ;;
                             setitem setup "generation_config" gen_config0
                        else Ok setup) ;;
             setitem (JObj d) "setup" setup0)
            = (s3 <- match dict_get "generation_config" s with
                     | Some gen_config =>
                         gen_config' <- remove_fields ["enable_affective_dialog"] gen_config ;;
                         Ok (dict_set "generation_config" gen_config' (dict_del "proactivity" s1))
                     | None => Ok (dict_del "proactivity" s1)
                     end ;;
               Ok (JObj (dict_set "setup" (JObj s3) d)))) as Tail.
  { intros s1 _ Hg. unfold unsupported_setup_fields, unsupported_gen_config_fields.
    rewrite remove_field_obj. cbn [Py.bind Py.contains Py.getitem].
    rewrite dict_has_get, dict_get_del_other by discriminate. rewrite Hg.
    destruct (dict_get "generation_config" s) as [g|]; cbn [Py.bind]; [|reflexivity].
    destruct (remove_fields ["enable_affective_dialog"] g); reflexivity. }
  destruct (dict_get "model" s) as [om|] eqn:Hm; cbn [Py.bind Py.getitem].
  - rewrite Hm. cbn [Py.bind]. destruct (extract om) as [r|e]; cbn [Py.bind Py.setitem];
      [|reflexivity].
    apply Tail; [now right|]. now rewrite dict_get_set_other by discriminate.
  - apply Tail; [now left | reflexivity].
Qed.

(** A message with a setup section takes the rewrite on its way upstream. *)
Lemma prepare_setup_message (data : json) (s : dict) :
  is_setup_message data s -> prepare_c2s data = transform data.
Proof.
  intros (d & -> & Hs). unfold prepare. cbn [andb negb Py.contains Py.bind].
  now rewrite dict_has_get, Hs.
Qed.

(** What a rewrite that goes through leaves in the setup section. *)
Lemma transform_setup_effect (d s : dict) (out : json) :
  dict_get "setup" d = Some (JObj s) ->
  transform (JObj d) = Ok out ->
  exists s' : dict,
    out = JObj (dict_set "setup" (JObj s') d) /\
    keys s' = filter (fun k => negb (String.eqb k "proactivity")) (keys s) /\
    dict_get "proactivity" s' = None /\
    match dict_get "model" s with
    | Some original_model =>
        exists r, extract original_model = Ok r /\ dict_get "model" s' = Some (JStr r)
    | None => dict_get "model" s' = None
    end /\
    match dict_get "generation_config" s with
    | Some gen_config =>
        exists g', remove_fields ["enable_affective_dialog"] gen_config = Ok g' /\
                   dict_get "generation_config" s' = Some g'
    | None => dict_get "generation_config" s' = None
    end /\
    (forall k, k <> "model" -> k <> "proactivity" -> k <> "generation_config" ->
               dict_get k s' = dict_get k s).
Proof.
  intros Hs H. rewrite (transform_setup_obj d s Hs) in H.
  destruct (match dict_get "model" s with
            | Some om => r <- extract om ;; Ok (dict_set "model" (JStr r) s)
            | None => Ok s
            end) as [s1|e] eqn:E1; [|discriminate H].
  cbn [Py.bind] in H.
  assert (keys s1 = keys s /\
          dict_get "generation_config" s1 = dict_get "generation_config" s /\
          match dict_get "model" s with
          | Some om => exists r, extract om = Ok r /\ dict_get "model" s1 = Some (JStr r)
          | None => dict_get "model" s1 = None
          end /\
          (forall k, k <> "model" -> dict_get k s1 = dict_get k s)) as (K1 & G1 & M1 & O1).
  { destruct (dict_get "model" s) as [om|] eqn:Hm.
    - destruct (extract om) as [r|e] eqn:Er; [|discriminate E1].
      cbn [Py.bind] in E1. injection E1 as <-. repeat split.
      + apply keys_set_present. congruence.
      + now apply dict_get_set_other.
      + exists r. split; [reflexivity | apply dict_get_set_same].
      + intros k N. apply dict_get_set_other. congruence.
    - injection E1 as <-. repeat split; assumption || reflexivity. }
  clear E1.
  set (s2 := dict_del "proactivity" s1) in H.
  assert (keys s2 = filter (fun k => negb (String.eqb k "proactivity")) (keys s)) as K2.
  { subst s2. now rewrite keys_del, K1. }
  assert (forall k, k <> "proactivity" -> dict_get k s2 = dict_get k s1) as O2.
  { intros k N. subst s2. apply dict_get_del_other. congruence. }
  assert (dict_get "proactivity" s2 = None) as P2 by apply dict_get_del_same.
  destruct (dict_get "generation_config" s) as [g|] eqn:Hg.
  - destruct (remove_fields ["enable_affective_dialog"] g) as [g'|e] eqn:Eg; [|discriminate H].
    cbn [Py.bind] in H. injection H as <-.
    exists (dict_set "generation_config" g' s2). repeat split.
    + rewrite keys_set_present; [exact K2|]. rewrite O2, G1 by discriminate. congruence.
    + now rewrite dict_get_set_other by discriminate.
    + rewrite dict_get_set_other, O2 by discriminate.
      destruct (dict_get "model" s); exact M1.
    + exists g'. split; [reflexivity | apply dict_get_set_same].
    + intros k N1 N2 N3. rewrite dict_get_set_other, O2, O1 by congruence. reflexivity.
  - cbn [Py.bind] in H. injection H as <-.
    exists s2. repeat split.
    + exact K2.
    + exact P2.
    + rewrite O2 by discriminate. destruct (dict_get "model" s); exact M1.
    + rewrite O2, G1 by discriminate. reflexivity.
    + intros k N1 N2 N3. rewrite O2, O1 by congruence. reflexivity.
Qed.

(** The rewrite goes through as soon as its two fallible steps do. *)
Lemma transform_setup_total (d s : dict) :
  dict_get "setup" d = Some (JObj s) ->
  match dict_get "model" s with
  | Some original_model => exists r, extract original_model = Ok r
  | None => True
  end ->
  match dict_get "generation_config" s with
  | Some gen_config => exists g', remove_fields ["enable_affective_dialog"] gen_config = Ok g'
  | None => True
  end ->
  exists out, transform (JObj d) = Ok out.
Proof.
  intros Hs Hm Hg. rewrite (transform_setup_obj d s Hs).
  destruct (dict_get "model" s) as [om|].
  - destruct Hm as [r ->]. cbn [Py.bind].
    destruct (dict_get "generation_config" s) as [g|].
    + destruct Hg as [g' ->]. cbn [Py.bind]. eexists. reflexivity.
    + eexists. reflexivity.
  - cbn [Py.bind]. destruct (dict_get "generation_config" s) as [g|].
    + destruct Hg as [g' ->]. cbn [Py.bind]. eexists. reflexivity.
    + eexists. reflexivity.
Qed.

End SetupRewrite.

(** ** The embedding on sample inputs *)

Section Runs.

Import Py WS ServerGeminiApi.

Local Abbreviation extract := (extract_model_name DEFAULT_MODEL_fallback).
Local Abbreviation client_task := (forward DEFAULT_MODEL_fallback false true).

Example extract_resource_path :
  extract (JStr "projects/p/locations/us-central1/publishers/google/models/gemini-1.5-pro")
  = Ok "models/gemini-1.5-pro".
Proof. reflexivity. Qed.

Example extract_already_prefixed :
  extract (JStr "models/gemini-2.0-flash-exp") = Ok "models/gemini-2.0-flash-exp".
Proof. reflexivity. Qed.

Example extract_null :
  extract JNull = Ok "models/gemini-2.5-flash-native-audio-preview-12-2025".
Proof. reflexivity. Qed.

(** [not 0.0] and [not -0.0] hold, [not nan] does not. *)
Example extract_negative_zero :
  extract (JFloat (-0)%float) = Ok "models/gemini-2.5-flash-native-audio-preview-12-2025".
Proof. reflexivity. Qed.

Example extract_nan_raises : extract (JFloat nan) = Raise TypeError.
Proof. reflexivity. Qed.

(** ["/models/" in 7] raises, and so does hashing a list. *)
Example extract_number_raises : extract (JInt 7) = Raise TypeError.
Proof. reflexivity. Qed.

Example extract_list_raises : extract (JArr [JStr "gemini-1.5-pro"]) = Raise TypeError.
Proof. reflexivity. Qed.

(** A list that holds ["/models/"] passes the [in] test and has no [split]. *)
Example extract_list_no_split : extract (JArr [JStr "/models/"]) = Raise AttributeError.
Proof. reflexivity. Qed.

(** A frame whose rewrite raises is printed as an error and not forwarded;
    the next frame is. *)
Example rewrite_error_drops_frame :
  client_task
    [Json (JObj [("setup", JObj [("model", JInt 7)])]);
     Json (JObj [("setup", JObj [("generation_config", JNull)])]);
     NotJson "{";
     Json (JObj [("realtime_input", JObj [])])]
    {| dst := fresh; log := [] |}
  = {| dst := {| state := Open; sent := [JObj [("realtime_input", JObj [])]] |};
       log := [ErrorProcessingMessage TypeError;
               ErrorProcessingMessage TypeError;
               ErrorProcessingMessage JSONDecodeError] |}.
Proof. reflexivity. Qed.

(** A [setup] that is a string is searched as a string. *)
Example setup_string_passes :
  prepare DEFAULT_MODEL_fallback false true (JObj [("setup", JStr "later")])
  = Ok (JObj [("setup", JStr "later")]).
Proof. reflexivity. Qed.

Example setup_string_with_model_raises :
  prepare DEFAULT_MODEL_fallback false true (JObj [("setup", JStr "a model")])
  = Raise TypeError.
Proof. reflexivity. Qed.

End Runs.

(** ** The direct-key variant: the model name of a setup message *)

Section ModelField.

Import Py PyStr ServerGeminiApi.
Local Open Scope py_scope.

Variable DEFAULT_MODEL : string.

Local Abbreviation map_model := (map_vertex_ai_to_gemini_api_model DEFAULT_MODEL).
Local Abbreviation extract := (extract_model_name DEFAULT_MODEL).
Local Abbreviation prepare_c2s := (prepare DEFAULT_MODEL false true).

(** The model field of a rewritten setup message is what
    [extract_model_name] makes of the original one. *)
Lemma prepare_model_field (data : json) (s : dict) (m r : string) (out : json) :
  is_setup_message data s ->
  dict_get "model" s = Some (JStr m) ->
  extract (JStr m) = Ok r ->
  prepare_c2s data = Ok out ->
  exists s', is_setup_message out s' /\ dict_get "model" s' = Some (JStr r).
Proof.
  intros Hd Hm Hr Hp. rewrite (prepare_setup_message _ _ _ Hd) in Hp.
  destruct Hd as (d & -> & Hs).
  destruct (transform_setup_effect _ d s out Hs Hp) as (s' & -> & _ & _ & M & _).
  rewrite Hm in M. destruct M as (r' & Er & M).
  assert (r' = r) as -> by congruence.
  exists s'. split; [|exact M].
  exists (dict_set "setup" (JObj s') d). split; [reflexivity | apply dict_get_set_same].
Qed.

(** A string model and a generation config that is absent or a dict: the
    rewrite goes through. *)
Lemma prepare_goes_through (data : json) (s : dict) :
  is_setup_message data s ->
  match dict_get "model" s with
  | Some (JStr _) | None => True
  | Some _ => False
  end ->
  match dict_get "generation_config" s with
  | Some (JObj _) | None => True
  | Some _ => False
  end ->
  exists out, prepare_c2s data = Ok out.
Proof.
  intros Hd Hm Hg. rewrite (prepare_setup_message _ _ _ Hd).
  destruct Hd as (d & -> & Hs). apply (transform_setup_total _ d s Hs).
  - destruct (dict_get "model" s) as [[| | | | m | |]|]; try contradiction; [|exact I].
    destruct (String.eqb m EmptyString) eqn:E.
    + apply String.eqb_eq in E. subst m. eexists. now apply extract_model_name_falsy.
    + apply String.eqb_neq in E. eexists. now apply extract_model_name_str.
  - destruct (dict_get "generation_config" s) as [[| | | | | | g]|]; try contradiction; [|exact I].
    eexists. apply remove_field_obj.
Qed.



End ModelField.

Section ModelSeparator.

Import Py PyStr ServerGeminiApi.
Local Open Scope py_scope.

Variable DEFAULT_MODEL : string.

Local Abbreviation map_model := (map_vertex_ai_to_gemini_api_model DEFAULT_MODEL).
Local Abbreviation extract := (extract_model_name DEFAULT_MODEL).
Local Abbreviation prepare_c2s := (prepare DEFAULT_MODEL false true).

Lemma contains_models_app (p t : string) :
  contains "/models/" (p ++ "/models/" ++ t) = true.
Proof. apply contains_app_l, contains_prefix, (prefix_app "/models/" t). Qed.

(** The name taken from [p ++ "/models/" ++ t] is [t], when [t] holds no
    separator and the one before it overlaps no earlier one. *)
Lemma model_name_of_suffix (p t : string) :
  contains "/models/" t = false ->
  endswith p "/models" = false ->
  model_name_of (p ++ "/models/" ++ t) = t.
Proof.
  intros Ht Hp. unfold model_name_of, split. rewrite contains_models_app.
  destruct (split_from_keeps_suffix p t 0 Ht Hp) as (front & Hne & ->); [lia|].
  rewrite length_app. cbn [length].
  destruct front as [|f front]; [congruence|].
  replace (1 <? length (f :: front) + 1)%nat with true
    by (symmetry; apply Nat.ltb_lt; cbn [length]; lia).
  apply last_last.
Qed.

Lemma str_length_app (a b : string) :
  String.length (a ++ b) = (String.length a + String.length b)%nat.
Proof. induction a as [|c a IH]; cbn [append String.length]; [reflexivity | now rewrite IH]. Qed.

Lemma str_app_assoc (a b c : string) : ((a ++ b) ++ c = a ++ b ++ c)%string.
Proof. induction a as [|x a IH]; cbn [append]; [reflexivity | now rewrite IH]. Qed.

Lemma eqb_length (a b : string) :
  String.eqb a b = true -> String.length a = String.length b.
Proof. intros H. apply String.eqb_eq in H. now subst. Qed.

(** A string that ends in ["/publishers/google"] does not end in ["/models"]. *)
Lemma endswith_publishers_google (a : string) :
  endswith (a ++ "/publishers/google") "/models" = false.
Proof.
  induction a as [|c a IH]; [reflexivity|].
  change (String c a ++ "/publishers/google")%string
    with (String c (a ++ "/publishers/google")).
  cbn [endswith]. rewrite IH, orb_false_r.
  destruct (String.eqb _ _) eqn:E; [|reflexivity].
  apply eqb_length in E. cbn [String.length] in E.
  rewrite str_length_app in E. cbn in E. lia.
Qed.

(** C10, as the code has it.  When the model field is
    [p ++ "/models/" ++ t], [t] holds no further ["/models/"] and the
    occurrence before [t] does not overlap an earlier one ([p] does not end
    in ["/models"]), the mapping is applied to [t] alone; so a Vertex
    resource path whose model part [t] holds no ["/models/"] is mapped from
    [t]; and an empty model field gives the configured default after
    ["models/"].  The same holds for the model field of the rewritten
    message. *)
Theorem model_name_follows_last_separator (p t : string) :
  contains "/models/" t = false ->
  endswith p "/models" = false ->
  extract (JStr (p ++ "/models/" ++ t)) = Ok (with_models_prefix (map_model t)) /\
  (forall project region : string,
     extract (JStr ("projects/" ++ project ++ "/locations/" ++ region
                      ++ "/publishers/google" ++ "/models/" ++ t))
     = Ok (with_models_prefix (map_model t))) /\
  extract (JStr "") = Ok ("models/" ++ DEFAULT_MODEL)%string /\
  (forall data s out,
     is_setup_message data s ->
     prepare_c2s data = Ok out ->
     (dict_get "model" s = Some (JStr (p ++ "/models/" ++ t)) ->
      exists s', is_setup_message out s' /\
                 dict_get "model" s' = Some (JStr (with_models_prefix (map_model t)))) /\
     (dict_get "model" s = Some (JStr "") ->
      exists s', is_setup_message out s' /\
                 dict_get "model" s' = Some (JStr ("models/" ++ DEFAULT_MODEL)))).
Proof.
  intros Ht Hp.
  assert (forall q, endswith q "/models" = false ->
            extract (JStr (q ++ "/models/" ++ t)) = Ok (with_models_prefix (map_model t)))
    as Hq.
  { intros q Hq. rewrite extract_model_name_str.
    - now rewrite (model_name_of_suffix q t Ht Hq).
    - destruct q; discriminate. }
  split; [|split; [|split]].
  - apply Hq, Hp.
  - intros project region.
    replace ("projects/" ++ project ++ "/locations/" ++ region
               ++ "/publishers/google" ++ "/models/" ++ t)%string
      with ((("projects/" ++ project ++ "/locations/" ++ region)
               ++ "/publishers/google") ++ "/models/" ++ t)%string.
    + apply Hq, endswith_publishers_google.
    + rewrite !str_app_assoc. reflexivity.
  - reflexivity.
  - intros data s out Hd Ho. split; intros Hm.
    + exact (prepare_model_field _ data s _ _ out Hd Hm (Hq p Hp) Ho).
    + exact (prepare_model_field _ data s _ _ out Hd Hm eq_refl Ho).
Qed.

End ModelSeparator.

(** C10, as stated, fails: in ["/models/models/gemini-live-2.5-flash-native-audio"]
    the last ["/models/"] starts at the second slash and is followed by a
    name of the table, yet [str.split] cuts at the first one and the name
    handed to the mapping is ["models/gemini-live-2.5-flash-native-audio"],
    which is then passed through unmapped. *)
Lemma last_separator_overlap_counterexample :
  ("/models/models/gemini-live-2.5-flash-native-audio"
   = "/models" ++ "/models/" ++ "gemini-live-2.5-flash-native-audio")%string /\
  PyStr.contains "/models/" "gemini-live-2.5-flash-native-audio" = false /\
  ServerGeminiApi.extract_model_name ServerGeminiApi.DEFAULT_MODEL_fallback
    (Py.JStr "/models/models/gemini-live-2.5-flash-native-audio")
  = Py.Ok "models/gemini-live-2.5-flash-native-audio" /\
  ServerGeminiApi.with_models_prefix
    (ServerGeminiApi.map_vertex_ai_to_gemini_api_model
       ServerGeminiApi.DEFAULT_MODEL_fallback "gemini-live-2.5-flash-native-audio")
  = "models/gemini-2.5-flash-native-audio-preview-12-2025" /\
  ~ (forall p t : string,
       PyStr.contains "/models/" t = false ->
       ServerGeminiApi.extract_model_name ServerGeminiApi.DEFAULT_MODEL_fallback
         (Py.JStr (p ++ "/models/" ++ t))
       = Py.Ok (ServerGeminiApi.with_models_prefix
                  (ServerGeminiApi.map_vertex_ai_to_gemini_api_model
                     ServerGeminiApi.DEFAULT_MODEL_fallback t))).
Proof.
  repeat (split; [reflexivity|]).
  intros H.
  specialize (H "/models" "gemini-live-2.5-flash-native-audio" eq_refl).
  vm_compute in H. discriminate H.
Qed.

(** ** The direct-key variant: the fields of a setup message *)

Section SetupFields.

Import Py PyStr ServerGeminiApi.
Local Open Scope py_scope.

Variable DEFAULT_MODEL : string.

Local Abbreviation extract := (extract_model_name DEFAULT_MODEL).
Local Abbreviation transform := (transform_setup DEFAULT_MODEL).
Local Abbreviation prepare_c2s := (prepare DEFAULT_MODEL false true).



(** C7, as the code has it.  In a rewritten setup message the setup section
    has no [proactivity] field and its generation config, if a dict, has no
    [enable_affective_dialog] field; every other field, at the top level, in
    the setup section and in the generation config, keeps its place and its
    value, except the model field of the setup section (rewritten by
    [extract_model_name]).  The rewrite goes through whenever the model is
    absent or a string and the generation config is absent or a dict. *)
Theorem unsupported_fields_are_removed (data : json) (s : dict) :
  is_setup_message data s ->
  (forall out, prepare_c2s data = Ok out ->
     exists d d' s',
       data = JObj d /\ out = JObj d' /\
       keys d' = keys d /\
       (forall k, k <> "setup" -> dict_get k d' = dict_get k d) /\
       dict_get "setup" d' = Some (JObj s') /\
       dict_get "proactivity" s' = None /\
       keys s' = filter (fun k => negb (String.eqb k "proactivity")) (keys s) /\
       (forall k, k <> "model" -> k <> "proactivity" -> k <> "generation_config" ->
                  dict_get k s' = dict_get k s) /\
       match dict_get "generation_config" s with
       | None => dict_get "generation_config" s' = None
       | Some (JObj g) =>
           exists g',
             dict_get "generation_config" s' = Some (JObj g') /\
             dict_get "enable_affective_dialog" g' = None /\
             keys g' = filter (fun k => negb (String.eqb k "enable_affective_dialog"))
                         (keys g) /\
             (forall k, k <> "enable_affective_dialog" -> dict_get k g' = dict_get k g)
       | Some other => dict_get "generation_config" s' = Some other
       end) /\
  (match dict_get "model" s with
   | Some (JStr _) | None => True
   | Some _ => False
   end ->
   match dict_get "generation_config" s with
   | Some (JObj _) | None => True
   | Some _ => False
   end -> exists out, prepare_c2s data = Ok out).
Proof.
  intros Hd. split; [|apply (prepare_goes_through _ data s Hd)].
  intros out Ho. rewrite (prepare_setup_message _ _ _ Hd) in Ho.
  destruct Hd as (d & -> & Hs).
  destruct (transform_setup_effect _ d s out Hs Ho) as (s' & -> & K & P & M & G & O).
  exists d, (dict_set "setup" (JObj s') d), s'. repeat split; try assumption.
  - apply keys_set_present. congruence.
  - intros k N. apply dict_get_set_other. congruence.
  - apply dict_get_set_same.
  - destruct (dict_get "generation_config" s) as [g|]; [|exact G].
    destruct G as (g' & R & G).
    destruct g as [| | | | | | g];
      try (rewrite G; f_equal;
           eapply remove_field_other; [intros ? ?; discriminate | exact R]).
    rewrite remove_field_obj in R. injection R as <-.
    exists (dict_del "enable_affective_dialog" g). split; [exact G|].
    split; [apply dict_get_del_same|]. split; [apply keys_del|].
    intros k N. apply dict_get_del_other. congruence.
Qed.

(** Keys stay unique, as they are in every dict Python builds. *)
Lemma rewrite_keeps_keys_unique (d s : dict) (out : json) :
  dict_get "setup" d = Some (JObj s) ->
  transform (JObj d) = Ok out ->
  dict_wf d -> dict_wf s ->
  exists d' s', out = JObj d' /\ dict_get "setup" d' = Some (JObj s') /\
                dict_wf d' /\ dict_wf s'.
Proof.
  intros Hs H Wd Ws.
  destruct (transform_setup_effect _ d s out Hs H) as (s' & -> & K & _).
  exists (dict_set "setup" (JObj s') d), s'. split; [reflexivity|].
  split; [apply dict_get_set_same|]. split.
  - apply dict_wf_set; [congruence | exact Wd].
  - unfold dict_wf. rewrite K. now apply NoDup_filter.
Qed.

(** A rewrite that goes through on a setup section that is no dict has
    changed nothing. *)
Lemma transform_setup_other (d : dict) (setup out : json) :
  dict_get "setup" d = Some setup ->
  (forall s, setup <> JObj s) ->
  transform (JObj d) = Ok out ->
  out = JObj d.
Proof.
  intros Hs N H. unfold transform_setup in H. cbn [Py.getitem] in H.
  rewrite Hs in H. cbn [Py.bind] in H.
  destruct setup as [| b | n | f | t | l | s]; cbn [Py.contains Py.bind] in H;
    try discriminate H; [| | now elim (N s)].
  - destruct (PyStr.contains "model" t); cbn in H; [discriminate H|].
    destruct (PyStr.contains "proactivity" t); cbn in H; [discriminate H|].
    destruct (PyStr.contains "generation_config" t); cbn in H; [discriminate H|].
    injection H as <-. now rewrite dict_set_same.
  - destruct (existsb _ l); cbn in H; [discriminate H|].
    destruct (existsb _ l); cbn in H; [discriminate H|].
    destruct (existsb _ l); cbn in H; [discriminate H|].
    injection H as <-. now rewrite dict_set_same.
Qed.

Section BareDefault.

Hypothesis default_unprefixed : startswith DEFAULT_MODEL "models/" = false.
Hypothesis default_clean : contains "/models/" DEFAULT_MODEL = false.

(** A rewritten message is left alone by a second rewrite. *)
Lemma transform_setup_fixed (d : dict) (out : json) :
  transform (JObj d) = Ok out -> prepare_c2s out = Ok out.
Proof.
  intros H.
  destruct (dict_get "setup" d) as [setup|] eqn:Hs.
  2:{ unfold transform_setup in H. cbn [Py.getitem] in H. rewrite Hs in H. discriminate H. }
  destruct (match setup with JObj _ => true | _ => false end) eqn:Shape.
  - destruct setup as [| | | | | | s]; try discriminate Shape. clear Shape.
    destruct (transform_setup_effect _ d s out Hs H) as (s' & -> & K & P & M & G & O).
    assert (dict_get "setup" (dict_set "setup" (JObj s') d) = Some (JObj s')) as Hs'
      by apply dict_get_set_same.
    rewrite (prepare_setup_message _ _ s') by (eexists; split; [reflexivity | exact Hs']).
    rewrite (transform_setup_obj _ _ s' Hs').
    assert (match dict_get "model" s' with
            | Some om => r <- extract om ;; Ok (dict_set "model" (JStr r) s')
            | None => Ok s'
            end = Ok s') as ->.
    { destruct (dict_get "model" s) as [om|].
      - destruct M as (r & Er & M). rewrite M.
        rewrite (extract_model_name_fixed _ default_unprefixed default_clean om r Er).
        cbn [Py.bind]. now rewrite dict_set_same.
      - now rewrite M. }
    cbn [Py.bind]. rewrite (dict_del_absent "proactivity" s' P).
    assert (match dict_get "generation_config" s' with
            | Some g => g' <- remove_fields ["enable_affective_dialog"] g ;;
                        Ok (dict_set "generation_config" g' s')
            | None => Ok s'
            end = Ok s') as ->.
    { destruct (dict_get "generation_config" s) as [g|].
      - destruct G as (g' & R & G). rewrite G, (remove_field_fixed _ _ _ R).
        cbn [Py.bind]. now rewrite dict_set_same.
      - now rewrite G. }
    cbn [Py.bind]. now rewrite dict_set_same.
  - assert (out = JObj d) as ->.
    { apply (transform_setup_other d setup out Hs); [|exact H].
      intros s ->. discriminate Shape. }
    unfold prepare. cbn [andb negb Py.contains Py.bind].
    rewrite dict_has_get, Hs. exact H.
Qed.

(** C8, as the code has it.  When the configured default is a bare model
    name (no ["models/"] prefix, no ["/models/"] segment), rewriting a
    message twice gives what rewriting it once gives, a raised exception
    included. *)
Theorem setup_rewrite_idempotent (data : json) :
  (out <- prepare_c2s data ;; prepare_c2s out) = prepare_c2s data.
Proof.
  destruct (prepare_c2s data) as [out|e] eqn:H; [|reflexivity].
  cbn [Py.bind]. unfold prepare in H. cbn [andb negb] in H.
  destruct (Py.contains "setup" data) as [[|]|e] eqn:C; cbn [Py.bind] in H.
  - destruct data as [| | | | | | d]; try discriminate H.
    exact (transform_setup_fixed d out H).
  - injection H as <-. unfold prepare. cbn [andb negb]. now rewrite C.
  - discriminate H.
Qed.

End BareDefault.

End SetupFields.


(** C7, as stated, fails: the model field is no unsupported field and does
    not keep its value. *)
Lemma model_field_rewritten_counterexample :
  let setup := [("model", Py.JStr "gemini-1.5-pro"); ("temperature", Py.JInt 1)] in
  let setup' := [("model", Py.JStr "models/gemini-1.5-pro"); ("temperature", Py.JInt 1)] in
  ServerGeminiApi.prepare ServerGeminiApi.DEFAULT_MODEL_fallback false true
    (Py.JObj [("setup", Py.JObj setup)])
  = Py.Ok (Py.JObj [("setup", Py.JObj setup')]) /\
  Py.dict_get "model" setup' <> Py.dict_get "model" setup.
Proof. split; [reflexivity | discriminate]. Qed.

(** C8, as stated, fails for some configured defaults.  With a default
    given as a resource path, an unknown managed name becomes that path
    under ["models/"], and a second rewrite cuts it at its last ["/models/"].
    With a default that already carries the prefix, an empty model field
    becomes ["models/models/gemini-2.0-flash-exp"], and a second rewrite cuts
    that too. *)
Lemma odd_default_counterexample :
  (let cfg := "projects/p/locations/r/publishers/google/models/gemini-2.0-flash-exp" in
   let data := Py.JObj [("setup", Py.JObj [("model", Py.JStr "gemini-live-3.0-experimental")])] in
   let once := ServerGeminiApi.prepare cfg false true data in
   let twice := Py.bind once (ServerGeminiApi.prepare cfg false true) in
   once = Py.Ok (Py.JObj [("setup", Py.JObj [("model", Py.JStr
            "models/projects/p/locations/r/publishers/google/models/gemini-2.0-flash-exp")])]) /\
   twice = Py.Ok (Py.JObj [("setup", Py.JObj [("model", Py.JStr
            "models/gemini-2.0-flash-exp")])]) /\
   twice <> once) /\
  (let cfg := "models/gemini-2.0-flash-exp" in
   let data := Py.JObj [("setup", Py.JObj [("model", Py.JStr "")])] in
   let once := ServerGeminiApi.prepare cfg false true data in
   let twice := Py.bind once (ServerGeminiApi.prepare cfg false true) in
   once = Py.Ok (Py.JObj [("setup", Py.JObj [("model", Py.JStr
            "models/models/gemini-2.0-flash-exp")])]) /\
   twice = Py.Ok (Py.JObj [("setup", Py.JObj [("model", Py.JStr
            "models/gemini-2.0-flash-exp")])]) /\
   twice <> once).
Proof. repeat split; discriminate. Qed.

(** ** The forwarding loop *)

Section ForwardingLoop.

Import Py WS.
Local Open Scope py_scope.

Variable DEFAULT_MODEL : string.

Local Abbreviation prepare_c2s := (ServerGeminiApi.prepare DEFAULT_MODEL false true).

(** A task never reopens or closes its destination while it forwards. *)
Lemma gemini_task_step_state (is_server flag : bool) (message : frame) (st : task_state) :
  state (dst (ServerGeminiApi.task_step DEFAULT_MODEL is_server flag message st))
  = state (dst st).
Proof.
  unfold ServerGeminiApi.task_step, ServerGeminiApi.process_message.
  destruct (loads message) as [data|e]; cbn [Py.bind]; [|reflexivity].
  destruct (ServerGeminiApi.prepare DEFAULT_MODEL is_server flag data) as [out|e];
    cbn [Py.bind]; [|reflexivity].
  unfold send. destruct (state (dst st)) eqn:E; cbn; congruence.
Qed.

Lemma server_task_step_state (message : frame) (st : task_state) :
  state (dst (Server.task_step message st)) = state (dst st).
Proof.
  unfold Server.task_step, Server.process_message.
  destruct (loads message) as [data|e]; cbn [Py.bind]; [|reflexivity].
  unfold send. destruct (state (dst st)) eqn:E; cbn; congruence.
Qed.

(** What an open destination receives for one frame. *)
Lemma gemini_task_step_open (is_server flag : bool) (message : frame) (st : task_state) :
  state (dst st) = Open ->
  sent (dst (ServerGeminiApi.task_step DEFAULT_MODEL is_server flag message st))
  = sent (dst st)
    ++ match loads message with
       | Ok data =>
           match ServerGeminiApi.prepare DEFAULT_MODEL is_server flag data with
           | Ok out => [out]
           | Raise _ => []
           end
       | Raise _ => []
       end.
Proof.
  intros Hopen. unfold ServerGeminiApi.task_step, ServerGeminiApi.process_message.
  destruct (loads message) as [data|e]; cbn [Py.bind]; [|now rewrite app_nil_r].
  destruct (ServerGeminiApi.prepare DEFAULT_MODEL is_server flag data) as [out|e];
    cbn [Py.bind]; [|now rewrite app_nil_r].
  unfold send. rewrite Hopen. reflexivity.
Qed.


(** Nothing is rewritten unless the task is the client's and the flag is set. *)
Lemma prepare_off (is_server flag : bool) (data : json) :
  is_server = true \/ flag = false ->
  ServerGeminiApi.prepare DEFAULT_MODEL is_server flag data = Ok data.
Proof.
  unfold ServerGeminiApi.prepare. intros [-> | ->]; [|reflexivity].
  now rewrite andb_false_r.
Qed.


End ForwardingLoop.


(** ** Write failures, closing codes, the handshake *)

Section Closing.

Import Py WS.
Local Open Scope py_scope.

Variable DEFAULT_MODEL : string.

Lemma send_closed (data : json) (w : ws) :
  closed w = true -> send data w = Raise ConnectionClosed.
Proof. unfold closed, send. destruct (state w); [discriminate | reflexivity | reflexivity]. Qed.

Lemma close_closed (c : close_call) (w : ws) : closed w = true -> close c w = w.
Proof. unfold closed, close. destruct (state w); [discriminate | reflexivity | reflexivity]. Qed.

Lemma server_forward_closed (messages : list frame) (st : task_state) :
  closed (dst st) = true ->
  Server.forward messages st
  = {| dst := dst st;
       log := log st
              ++ map (fun m => ErrorProcessingMessage
                                 match m with
                                 | Json _ => ConnectionClosed
                                 | NotJson _ => JSONDecodeError
                                 end) messages |}.
Proof.
  revert st. induction messages as [|m rest IH]; intros st Hc.
  - cbn. rewrite app_nil_r. now destruct st.
  - cbn [Server.forward map]. rewrite IH.
    + unfold Server.task_step, Server.process_message.
      destruct m as [data|raw]; cbn [loads Py.bind].
      * rewrite (send_closed data _ Hc). cbn [dst log]. now rewrite <- app_assoc.
      * cbn [dst log]. now rewrite <- app_assoc.
    + unfold closed. rewrite server_task_step_state. exact Hc.
Qed.

Lemma gemini_forward_closed (is_server flag : bool) (messages : list frame) (st : task_state) :
  closed (dst st) = true ->
  exists errors : list exn,
    length errors = length messages /\
    ServerGeminiApi.forward DEFAULT_MODEL is_server flag messages st
    = {| dst := dst st; log := log st ++ map ErrorProcessingMessage errors |}.
Proof.
  revert st. induction messages as [|m rest IH]; intros st Hc.
  - exists []. split; [reflexivity|]. cbn. rewrite app_nil_r. now destruct st.
  - cbn [ServerGeminiApi.forward].
    assert (exists e, ServerGeminiApi.task_step DEFAULT_MODEL is_server flag m st
                      = {| dst := dst st; log := log st ++ [ErrorProcessingMessage e] |})
      as [e ->].
    { unfold ServerGeminiApi.task_step, ServerGeminiApi.process_message.
      destruct (loads m) as [data|e]; cbn [Py.bind]; [|eexists; reflexivity].
      destruct (ServerGeminiApi.prepare DEFAULT_MODEL is_server flag data) as [out|e];
        cbn [Py.bind]; [|eexists; reflexivity].
      rewrite (send_closed out _ Hc). eexists; reflexivity. }
    destruct (IH {| dst := dst st; log := log st ++ [ErrorProcessingMessage e] |} Hc)
      as (errors & Hlen & ->).
    exists (e :: errors). split; [cbn [length]; now rewrite Hlen|].
    cbn [dst log map]. now rewrite <- app_assoc.
Qed.

(** C4, as the code has it.  A write that fails because the destination is
    closed is caught by the inner [except Exception] like any other error of
    that frame: it is printed and the loop takes the next frame.  On a closed
    destination every frame of the source is taken up, each leaves one
    "Error processing message" line, and the task ends only when the source
    does, in both variants. *)
Theorem failed_write_is_logged_and_loop_goes_on
    (is_server flag : bool) (messages : list frame) (e : source_end) (st : task_state) :
  closed (dst st) = true ->
  Server.forward messages st
  = {| dst := dst st;
       log := log st
              ++ map (fun m => ErrorProcessingMessage
                                 match m with
                                 | Json _ => ConnectionClosed
                                 | NotJson _ => JSONDecodeError
                                 end) messages |} /\
  (exists errors : list exn,
     length errors = length messages /\
     ServerGeminiApi.forward DEFAULT_MODEL is_server flag messages st
     = {| dst := dst st; log := log st ++ map ErrorProcessingMessage errors |}) /\
  dst (Server.proxy_task is_server messages e st) = dst st /\
  dst (ServerGeminiApi.proxy_task DEFAULT_MODEL is_server flag messages e st) = dst st.
Proof.
  intros Hc.
  pose proof (server_forward_closed messages st Hc) as HS.
  pose proof (gemini_forward_closed is_server flag messages st Hc) as HG.
  split; [exact HS|]. split; [exact HG|]. split.
  - unfold Server.proxy_task, Server.task_finish. rewrite HS. cbn [dst].
    now apply close_closed.
  - destruct HG as (errors & _ & HG).
    unfold ServerGeminiApi.proxy_task, ServerGeminiApi.task_finish. rewrite HG. cbn [dst].
    now apply close_closed.
Qed.

(** The frames a session relays leave both connections as open or as closed
    as they were. *)
Lemma server_relay_client_state (arr : list (direction * frame)) (s : session) :
  state (client (Server.relay arr s)) = state (client s).
Proof.
  revert s. induction arr as [|[[|] m] rest IH]; intros s; cbn [Server.relay].
  - reflexivity.
  - rewrite IH. reflexivity.
  - rewrite IH. cbn [client].
    exact (server_task_step_state m {| dst := client s; log := slog s |}).
Qed.

Lemma gemini_relay_client_state (arr : list (direction * frame)) (s : session) :
  state (client (ServerGeminiApi.relay DEFAULT_MODEL arr s)) = state (client s).
Proof.
  revert s. induction arr as [|[[|] m] rest IH]; intros s; cbn [ServerGeminiApi.relay].
  - reflexivity.
  - rewrite IH. reflexivity.
  - rewrite IH. cbn [client].
    exact (gemini_task_step_state DEFAULT_MODEL true false m
             {| dst := client s; log := slog s |}).
Qed.

(** Whatever code and reason the upstream closes with while the session
    relays, the client is closed by a plain [close()]. *)
Lemma upstream_end_closes_client_plainly (client_websocket : ws) (trace : relay_trace)
    (e : source_end) :
  state client_websocket = Open ->
  first_end trace = (FromServer, e) ->
  state (p_client (Server.create_proxy client_websocket Connected trace))
  = ClosedByUs CloseDefault /\
  state (p_client (ServerGeminiApi.create_proxy DEFAULT_MODEL client_websocket Connected trace))
  = ClosedByUs CloseDefault.
Proof.
  intros Hopen He. split.
  - unfold Server.create_proxy. rewrite He. cbn [p_client client Server.task_finish dst].
    unfold close at 1 2.
    rewrite server_relay_client_state. cbn [client state]. rewrite Hopen. reflexivity.
  - unfold ServerGeminiApi.create_proxy. rewrite He.
    cbn [p_client client ServerGeminiApi.task_finish dst].
    unfold close at 1 2.
    rewrite gemini_relay_client_state. cbn [client state]. rewrite Hopen. reflexivity.
Qed.

End Closing.

(** C4, as stated, fails: with the destination already closed, the write of
    the first frame fails and the second frame is taken up all the same; the
    task does not end where a source that delivers the first frame alone
    would have ended it. *)
Lemma failed_write_loop_survives_counterexample :
  let closed_dst := {| WS.state := WS.ClosedByPeer 1000 ""; WS.sent := [] |} in
  let st := {| WS.dst := closed_dst; WS.log := [] |} in
  let a := Py.Json (Py.JObj [("realtime_input", Py.JObj [])]) in
  let b := Py.Json (Py.JObj [("client_content", Py.JObj [])]) in
  WS.log (Server.forward [a; b] st)
  = [WS.ErrorProcessingMessage Py.ConnectionClosed;
     WS.ErrorProcessingMessage Py.ConnectionClosed] /\
  Server.forward [a; b] st <> Server.forward [a] st /\
  WS.log (ServerGeminiApi.forward ServerGeminiApi.DEFAULT_MODEL_fallback false true [a; b] st)
  = [WS.ErrorProcessingMessage Py.ConnectionClosed;
     WS.ErrorProcessingMessage Py.ConnectionClosed] /\
  ServerGeminiApi.forward ServerGeminiApi.DEFAULT_MODEL_fallback false true [a; b] st
  <> ServerGeminiApi.forward ServerGeminiApi.DEFAULT_MODEL_fallback false true [a] st.
Proof. repeat split; discriminate. Qed.

(** C5 at a failing input.  The upstream closes with code 1011 and a reason
    while the session relays: in both variants the client is closed by a
    plain [close()], which carries neither.  The handler of [create_proxy]
    that passes code and reason on is reached only when [ConnectionClosed]
    comes out of [websockets.connect] itself. *)
Theorem upstream_close_code_is_lost_mid_relay :
  let trace :=
    {| WS.arrivals := [(WS.FromClient, Py.Json (Py.JObj [("setup", Py.JObj [])]));
                       (WS.FromServer, Py.Json (Py.JObj [("setupComplete", Py.JObj [])]))];
       WS.first_end := (WS.FromServer, WS.RaisedConnectionClosed 1011 "Internal error");
       WS.stragglers := [] |} in
  WS.state (WS.p_client (Server.create_proxy WS.fresh WS.Connected trace))
  = WS.ClosedByUs WS.CloseDefault /\
  WS.state (WS.p_client (ServerGeminiApi.create_proxy ServerGeminiApi.DEFAULT_MODEL_fallback
                           WS.fresh WS.Connected trace))
  = WS.ClosedByUs WS.CloseDefault /\
  WS.state (WS.p_client (Server.create_proxy WS.fresh
                           (WS.ConnectRaisedClosed 1011 "Internal error") trace))
  = WS.ClosedByUs (WS.CloseWith 1011 "Internal error") /\
  WS.state (WS.p_client (ServerGeminiApi.create_proxy ServerGeminiApi.DEFAULT_MODEL_fallback
                           WS.fresh (WS.ConnectRaisedClosed 1011 "Internal error") trace))
  = WS.ClosedByUs (WS.CloseWith 1011 "Internal error").
Proof. repeat split. Qed.

(** ** The handshake of the managed variant *)

Section Handshake.

Import Py WS.

(** C9, as the code has it.  A handshake object without [bearer_token] and
    without [service_url] never leads to an upstream connection.  The token
    is resolved first: when [generate_access_token] yields a non-empty token
    the client is closed with 1008 "Service URL is required"; when it yields
    nothing the client is closed with 1008 "Authentication failed". *)
Theorem missing_service_url_is_refused
    (generate_access_token : option string) (d : dict) (client_websocket : ws)
    (outcome : connect_outcome) (trace : relay_trace) :
  dict_get "bearer_token" d = None ->
  dict_get "service_url" d = None ->
  state client_websocket = Open ->
  let r := Server.handle_websocket_client generate_access_token client_websocket
             (RecvMessage (Json (JObj d))) outcome trace in
  Server.h_connect r = None /\
  Server.h_server r = None /\
  state (Server.h_client r)
  = ClosedByUs (CloseWith 1008
                  match generate_access_token with
                  | Some token => if String.eqb token EmptyString
                                  then "Authentication failed"
                                  else "Service URL is required"
                  | None => "Authentication failed"
                  end).
Proof.
  intros Hb Hu Hopen r. subst r.
  unfold Server.handle_websocket_client. cbn [loads Py.get Py.bind].
  rewrite Hb, Hu. unfold Server.resolve_token. cbn [truthy negb].
  destruct generate_access_token as [token|].
  - destruct (String.eqb token EmptyString); cbn [negb truthy];
      unfold Server.refuse, close; cbn; rewrite Hopen; repeat split.
  - unfold Server.refuse, close; cbn; rewrite Hopen; repeat split.
Qed.

End Handshake.

(** C9, as stated, fails: with no credentials to generate a token from, the
    same handshake is refused with "Authentication failed". *)
Lemma missing_service_url_without_credentials_counterexample :
  let trace := {| WS.arrivals := [];
                  WS.first_end := (WS.FromClient, WS.EndOfStream 1000 "");
                  WS.stragglers := [] |} in
  let r := Server.handle_websocket_client None WS.fresh
             (WS.RecvMessage (Py.Json (Py.JObj []))) WS.Connected trace in
  WS.state (Server.h_client r) = WS.ClosedByUs (WS.CloseWith 1008 "Authentication failed") /\
  WS.state (Server.h_client r) <> WS.ClosedByUs (WS.CloseWith 1008 "Service URL is required").
Proof. split; [reflexivity | discriminate]. Qed.

(** ** The theorems at concrete inputs *)

Section Instances.

Import Py WS ServerGeminiApi Samples.

Lemma vertex_setup_message : is_setup_message (JObj [("setup", JObj vertex_setup)]) vertex_setup.
Proof. exists [("setup", JObj vertex_setup)]. split; reflexivity. Defined.




Lemma model_name_follows_last_separator_witness :
  PyStr.contains "/models/" "gemini-live-2.5-flash-native-audio" = false /\
  PyStr.endswith "publishers/google" "/models" = false /\
  extract_model_name DEFAULT_MODEL_fallback
    (JStr "publishers/google/models/gemini-live-2.5-flash-native-audio")
  = Ok "models/gemini-2.5-flash-native-audio-preview-12-2025".
Proof.
  split; [reflexivity|]. split; [reflexivity|].
  exact (proj1 (model_name_follows_last_separator DEFAULT_MODEL_fallback
                  "publishers/google" "gemini-live-2.5-flash-native-audio"
                  eq_refl eq_refl)).
Defined.



Lemma unsupported_fields_are_removed_witness :
  exists out,
    prepare DEFAULT_MODEL_fallback false true (JObj [("setup", JObj vertex_setup)]) = Ok out /\
    exists d' s', out = JObj d' /\
                  dict_get "setup" d' = Some (JObj s') /\
                  dict_get "proactivity" s' = None /\
                  keys s' = ["model"; "generation_config"].
Proof.
  destruct (unsupported_fields_are_removed DEFAULT_MODEL_fallback
              (JObj [("setup", JObj vertex_setup)]) vertex_setup
              vertex_setup_message) as (A & B).
  destruct (B I I) as [out Ho]. exists out. split; [exact Ho|].
  destruct (A out Ho) as (d & d' & s' & _ & E & _ & _ & S & P & K & _).
  exists d', s'. repeat split; assumption.
Defined.

Lemma setup_rewrite_idempotent_witness :
  PyStr.startswith DEFAULT_MODEL_fallback "models/" = false /\
  PyStr.contains "/models/" DEFAULT_MODEL_fallback = false /\
  Py.bind (prepare DEFAULT_MODEL_fallback false true (JObj [("setup", JObj vertex_setup)]))
          (prepare DEFAULT_MODEL_fallback false true)
  = prepare DEFAULT_MODEL_fallback false true (JObj [("setup", JObj vertex_setup)]).
Proof.
  split; [reflexivity|]. split; [reflexivity|].
  exact (setup_rewrite_idempotent DEFAULT_MODEL_fallback eq_refl eq_refl
           (JObj [("setup", JObj vertex_setup)])).
Defined.


Lemma failed_write_is_logged_and_loop_goes_on_witness :
  closed {| state := ClosedByPeer 1001 "going away"; sent := [] |} = true /\
  Server.forward [Json (JObj []); NotJson "{"; Json JNull]
    {| dst := {| state := ClosedByPeer 1001 "going away"; sent := [] |}; log := [] |}
  = {| dst := {| state := ClosedByPeer 1001 "going away"; sent := [] |};
       log := [ErrorProcessingMessage ConnectionClosed;
               ErrorProcessingMessage JSONDecodeError;
               ErrorProcessingMessage ConnectionClosed] |}.
Proof.
  split; [reflexivity|].
  exact (proj1 (failed_write_is_logged_and_loop_goes_on DEFAULT_MODEL_fallback false true
                  [Json (JObj []); NotJson "{"; Json JNull] (EndOfStream 1000 "")
                  {| dst := {| state := ClosedByPeer 1001 "going away"; sent := [] |};
                     log := [] |}
                  eq_refl)).
Defined.

Lemma missing_service_url_is_refused_witness :
  dict_get "bearer_token" [("setup", JObj [])] = None /\
  dict_get "service_url" [("setup", JObj [])] = None /\
  state fresh = Open /\
  state (Server.h_client
           (Server.handle_websocket_client (Some "ya29.token") fresh
              (RecvMessage (Json (JObj [("setup", JObj [])]))) Connected
              {| arrivals := []; first_end := (FromClient, EndOfStream 1000 "");
                 stragglers := [] |}))
  = ClosedByUs (CloseWith 1008 "Service URL is required").
Proof.
  repeat (split; [reflexivity|]).
  exact (proj2 (proj2 (missing_service_url_is_refused (Some "ya29.token")
                         [("setup", JObj [])] fresh Connected
                         {| arrivals := []; first_end := (FromClient, EndOfStream 1000 "");
                            stragglers := [] |}
                         eq_refl eq_refl eq_refl))).
Defined.

End Instances.

(** * Further properties of the two servers *)

(** ** [extract_model_name] and the table *)

Section ModelNameProperties.

Import Py PyStr ServerGeminiApi.
Local Open Scope py_scope.

Variable DEFAULT_MODEL : string.

Local Abbreviation map_model := (map_vertex_ai_to_gemini_api_model DEFAULT_MODEL).
Local Abbreviation extract := (extract_model_name DEFAULT_MODEL).
Local Abbreviation prepare_c2s := (prepare DEFAULT_MODEL false true).

(** The last piece of a split is what the string ends in. *)
Lemma split_from_last_suffix (sep s : string) (k : nat) :
  exists p, s = (p ++ last (split_from sep s k) EmptyString)%string.
Proof.
  revert k. induction s as [|c s IH]; intros k; cbn [split_from].
  - exists EmptyString. reflexivity.
  - destruct k as [|k].
    + destruct (String.prefix sep (String c s)).
      * rewrite last_cons_nonempty by apply split_from_nonempty.
        destruct (IH (String.length sep - 1)%nat) as [p Hp].
        exists (String c p). cbn [append]. now rewrite <- Hp.
      * destruct (split_from sep s 0) as [|piece [|r rest]] eqn:E.
        -- now apply split_from_nonempty in E.
        -- apply split_from_single in E. subst piece. exists EmptyString. reflexivity.
        -- destruct (IH 0%nat) as [p Hp]. rewrite E in Hp.
           rewrite last_cons_nonempty in Hp by discriminate.
           rewrite last_cons_nonempty by discriminate.
           exists (String c p). cbn [append]. now rewrite <- Hp.
    + destruct (IH k) as [p Hp]. exists (String c p). cbn [append]. now rewrite <- Hp.
Qed.

(** X1.  Whatever [extract_model_name] returns starts with ["models/"], for
    every input and every configured default; so the model field of a
    rewritten setup message, when there is one, is a string under that
    prefix. *)
Theorem extracted_model_is_prefixed (x : json) (r : string) :
  extract x = Ok r ->
  startswith r "models/" = true /\
  (forall data s out,
     is_setup_message data s ->
     dict_get "model" s = Some x ->
     prepare_c2s data = Ok out ->
     exists s' r', is_setup_message out s' /\
                   dict_get "model" s' = Some (JStr r') /\
                   startswith r' "models/" = true).
Proof.
  intros H.
  assert (forall y q, extract y = Ok q -> startswith q "models/" = true) as P.
  { intros y q Hy. destruct (truthy y) eqn:T.
    - destruct y as [| b | n | f | m | l | d];
        try (destruct (extract_model_name_raises DEFAULT_MODEL _ T) as [e He];
             [ intros ?; discriminate | congruence ]).
      rewrite extract_model_name_str in Hy by (intros ->; discriminate T).
      injection Hy as <-. apply with_models_prefix_starts.
    - rewrite (extract_model_name_falsy _ _ T) in Hy. injection Hy as <-.
      apply (prefix_app "models/" DEFAULT_MODEL). }
  split; [exact (P x r H)|].
  intros data s out Hd Hm Ho. rewrite (prepare_setup_message _ _ _ Hd) in Ho.
  destruct Hd as (d & -> & Hs).
  destruct (transform_setup_effect _ d s out Hs Ho) as (s' & -> & _ & _ & M & _).
  rewrite Hm in M. destruct M as (r' & Er & M).
  exists s', r'. split; [|split; [exact M | exact (P x r' Er)]].
  exists (dict_set "setup" (JObj s') d). split; [reflexivity | apply dict_get_set_same].
Qed.

(** X2.  [extract_model_name] returns exactly on the falsy values ([None],
    [False], zero, the empty string, list or dict) and on strings; on every
    other value (a non-zero number, [True], a non-empty list or dict) it
    raises. *)
Theorem extract_returns_iff_falsy_or_string (x : json) :
  (exists r, extract x = Ok r) <-> (truthy x = false \/ exists m, x = JStr m).
Proof.
  split.
  - intros [r H]. destruct (truthy x) eqn:T; [|now left]. right.
    destruct x as [| b | n | f | m | l | d];
      try (destruct (extract_model_name_raises DEFAULT_MODEL _ T) as [e He];
           [ intros ?; discriminate | congruence ]).
    now exists m.
  - intros [T | [m ->]].
    + eexists. now apply extract_model_name_falsy.
    + destruct (String.eqb m EmptyString) eqn:E.
      * apply String.eqb_eq in E. subst m. eexists. now apply extract_model_name_falsy.
      * apply String.eqb_neq in E. eexists. now apply extract_model_name_str.
Qed.

(** X3.  For a non-empty string the name that is looked up is a part the
    string ends in, it holds no ["/models/"], and it is the whole string
    when the string holds none. *)
Theorem looked_up_name_is_clean_suffix (m : string) :
  m <> EmptyString ->
  exists p name,
    m = (p ++ name)%string /\
    contains "/models/" name = false /\
    (contains "/models/" m = false -> name = m) /\
    extract (JStr m) = Ok (with_models_prefix (map_model name)).
Proof.
  intros Hne.
  assert (exists p, m = (p ++ model_name_of m)%string) as [p Hp].
  { unfold model_name_of. destruct (contains "/models/" m).
    - destruct (1 <? length (split m "/models/"))%nat.
      + apply split_from_last_suffix.
      + exists EmptyString. reflexivity.
    - exists EmptyString. reflexivity. }
  exists p, (model_name_of m). split; [exact Hp|].
  split; [apply model_name_of_clean|]. split.
  - intros C. unfold model_name_of. now rewrite C.
  - now apply extract_model_name_str.
Qed.

(** X4.  A name that already starts with ["models/"] and holds no
    ["/models/"] is returned as it is, with no look-up in the table: also
    when what follows the prefix is a managed-variant name of the table. *)
Theorem prefixed_name_is_not_mapped (t : string) :
  contains "/models/" ("models/" ++ t) = false ->
  extract (JStr ("models/" ++ t)) = Ok ("models/" ++ t)%string /\
  forall data s out,
    is_setup_message data s ->
    dict_get "model" s = Some (JStr ("models/" ++ t)) ->
    prepare_c2s data = Ok out ->
    exists s', is_setup_message out s' /\
               dict_get "model" s' = Some (JStr ("models/" ++ t)).
Proof.
  intros C. pose proof (extract_prefixed_clean DEFAULT_MODEL t C) as E.
  split; [exact E|]. intros data s out Hd Hm Ho.
  exact (prepare_model_field DEFAULT_MODEL data s _ _ out Hd Hm E Ho).
Qed.

(** X5.  Unless the configured default is itself a managed-variant name,
    [map_vertex_ai_to_gemini_api_model] never returns a name that starts
    with ["gemini-live-"]. *)
Theorem mapping_never_returns_managed_name (name : string) :
  startswith DEFAULT_MODEL "gemini-live-" = false ->
  startswith (map_model name) "gemini-live-" = false.
Proof.
  intros HD. unfold map_vertex_ai_to_gemini_api_model.
  destruct (mapping_get name model_mapping) as [v|] eqn:E.
  - apply mapping_get_in in E. cbn in E.
    repeat (destruct E as [[= <- <-]|E]; [reflexivity|]). contradiction.
  - destruct (startswith name "gemini-live-") eqn:P; cbn [negb]; assumption.
Qed.

(** X6.  Mapping a mapped name changes nothing, unless the configured
    default is one of the managed-variant names of the table. *)
Theorem mapping_is_idempotent (name : string) :
  (startswith DEFAULT_MODEL "gemini-live-" = true ->
   mapping_get DEFAULT_MODEL model_mapping = None) ->
  map_model (map_model name) = map_model name.
Proof.
  intros HD.
  destruct (mapping_get name model_mapping) as [v|] eqn:E.
  - rewrite (map_model_known DEFAULT_MODEL _ _ E).
    apply mapping_get_in in E. cbn in E.
    repeat (destruct E as [[= <- <-]|E]; [reflexivity|]). contradiction.
  - destruct (startswith name "gemini-live-") eqn:P.
    + rewrite (map_model_unknown DEFAULT_MODEL _ P E).
      destruct (startswith DEFAULT_MODEL "gemini-live-") eqn:PD.
      * apply map_model_unknown; [exact PD | exact (HD eq_refl)].
      * now apply map_model_unmanaged.
    + rewrite (map_model_unmanaged DEFAULT_MODEL _ P). now apply map_model_unmanaged.
Qed.

(** X7.  On a message whose setup section is a dict the rewrite returns
    exactly when the model field is absent, falsy or a string, and the
    generation config is absent, a dict, or a string or list that does not
    hold ["enable_affective_dialog"]; in every other case it raises and the
    frame is not forwarded. *)
Theorem rewrite_returns_iff_well_shaped (data : json) (s : dict) :
  is_setup_message data s ->
  ((exists out, prepare_c2s data = Ok out) <->
   (match dict_get "model" s with
    | None => True
    | Some original_model =>
        truthy original_model = false \/ exists m, original_model = JStr m
    end /\
    match dict_get "generation_config" s with
    | None | Some (JObj _) => True
    | Some (JStr t) => contains "enable_affective_dialog" t = false
    | Some (JArr l) => existsb (fun x => eq_str x "enable_affective_dialog") l = false
    | Some _ => False
    end)) /\
  (forall (e : exn) (st : WS.task_state),
     prepare_c2s data = Raise e ->
     task_step DEFAULT_MODEL false true (Json data) st
     = {| WS.dst := WS.dst st;
          WS.log := WS.log st ++ [WS.ErrorProcessingMessage e] |}).
Proof.
  intros Hd. split.
  - rewrite (prepare_setup_message _ _ _ Hd). destruct Hd as (d & -> & Hs).
    rewrite (transform_setup_obj _ d s Hs).
    assert (forall g, (exists g', remove_fields ["enable_affective_dialog"] g = Ok g') <->
              match g with
              | JObj _ => True
              | JStr t => contains "enable_affective_dialog" t = false
              | JArr l => existsb (fun x => eq_str x "enable_affective_dialog") l = false
              | _ => False
              end) as G.
    { intros g. destruct g as [| b | n | f | t | l | g].
      1-4: (cbn; split; [intros [? ?]; discriminate | contradiction]).
      - cbn [remove_fields Py.contains Py.bind].
        destruct (contains "enable_affective_dialog" t); cbn.
        + split; [intros [? ?]; discriminate | discriminate].
        + split; [reflexivity | intros _; eexists; reflexivity].
      - cbn [remove_fields Py.contains Py.bind].
        destruct (existsb _ l); cbn.
        + split; [intros [? ?]; discriminate | discriminate].
        + split; [reflexivity | intros _; eexists; reflexivity].
      - split; [trivial | intros _; eexists; apply remove_field_obj]. }
    destruct (dict_get "model" s) as [om|].
    + pose proof (extract_returns_iff_falsy_or_string om) as M.
      destruct (extract om) as [r|e]; cbn [Py.bind].
      * destruct (dict_get "generation_config" s) as [g|].
        -- specialize (G g).
           destruct (remove_fields ["enable_affective_dialog"] g) as [g'|e'];
             cbn [Py.bind].
           ++ split; [intros _|intros _; eexists; reflexivity].
              split; [apply M; eexists; reflexivity|].
              apply G. eexists; reflexivity.
           ++ split; [intros [? ?]; discriminate|]. intros [_ Hg].
              apply G in Hg. destruct Hg as [? ?]. discriminate.
        -- split; [intros _|intros _; eexists; reflexivity].
           split; [apply M; eexists; reflexivity | exact I].
      * split; [intros [? ?]; discriminate|]. intros [Hm _].
        apply M in Hm. destruct Hm as [? ?]. discriminate.
    + cbn [Py.bind]. destruct (dict_get "generation_config" s) as [g|].
      * specialize (G g).
        destruct (remove_fields ["enable_affective_dialog"] g) as [g'|e']; cbn [Py.bind].
        -- split; [intros _|intros _; eexists; reflexivity].
           split; [exact I | apply G; eexists; reflexivity].
        -- split; [intros [? ?]; discriminate|]. intros [_ Hg].
           apply G in Hg. destruct Hg as [? ?]. discriminate.
      * split; [intros _; split; exact I | intros _; eexists; reflexivity].
  - intros e st H. unfold task_step, process_message. cbn [loads Py.bind].
    now rewrite H.
Qed.

End ModelNameProperties.

(** ** The relay session *)

Section RelayProperties.

Import Py WS.
Local Open Scope py_scope.

Variable DEFAULT_MODEL : string.

Local Abbreviation prepare_c2s := (ServerGeminiApi.prepare DEFAULT_MODEL false true).



(** The JSON frames of one direction, in the order of arrival. *)
Lemma server_relay_sent (arr : list (direction * frame)) (s : session) :
  state (client s) = Open ->
  state (server s) = Open ->
  state (server (Server.relay arr s)) = Open /\
  sent (client (Server.relay arr s))
  = sent (client s)
    ++ flat_map (fun a => match a with
                          | (FromServer, Json data) => [data]
                          | _ => []
                          end) arr /\
  sent (server (Server.relay arr s))
  = sent (server s)
    ++ flat_map (fun a => match a with
                          | (FromClient, Json data) => [data]
                          | _ => []
                          end) arr.
Proof.
  revert s. induction arr as [|[[|] m] rest IH]; intros s Hc Hs.
  - cbn. now rewrite !app_nil_r.
  - cbn [Server.relay flat_map].
    unfold Server.task_step, Server.process_message, send. cbn [dst log].
    destruct m as [data|raw]; cbn [loads Py.bind].
    + rewrite Hs. cbn [dst log].
      destruct (IH {| client := client s;
                      server := {| state := Open; sent := sent (server s) ++ [data] |};
                      slog := slog s |} Hc eq_refl) as (A & B & C).
      split; [exact A|]. split; [exact B|]. rewrite C. cbn [server sent].
      now rewrite <- app_assoc.
    + cbn [dst log].
      destruct (IH {| client := client s; server := server s;
                      slog := slog s ++ [ErrorProcessingMessage JSONDecodeError] |}
                  Hc Hs) as (A & B & C).
      split; [exact A|]. split; [exact B | exact C].
  - cbn [Server.relay flat_map].
    unfold Server.task_step, Server.process_message, send. cbn [dst log].
    destruct m as [data|raw]; cbn [loads Py.bind].
    + rewrite Hc. cbn [dst log].
      destruct (IH {| client := {| state := Open; sent := sent (client s) ++ [data] |};
                      server := server s;
                      slog := slog s |} eq_refl Hs) as (A & B & C).
      split; [exact A|]. split; [|exact C]. rewrite B. cbn [client sent].
      now rewrite <- app_assoc.
    + cbn [dst log].
      destruct (IH {| client := client s; server := server s;
                      slog := slog s ++ [ErrorProcessingMessage JSONDecodeError] |}
                  Hc Hs) as (A & B & C).
      split; [exact A|]. split; [exact B | exact C].
Qed.

Lemma gemini_relay_sent (arr : list (direction * frame)) (s : session) :
  state (client s) = Open ->
  state (server s) = Open ->
  state (server (ServerGeminiApi.relay DEFAULT_MODEL arr s)) = Open /\
  sent (client (ServerGeminiApi.relay DEFAULT_MODEL arr s))
  = sent (client s)
    ++ flat_map (fun a => match a with
                          | (FromServer, Json data) => [data]
                          | _ => []
                          end) arr /\
  sent (server (ServerGeminiApi.relay DEFAULT_MODEL arr s))
  = sent (server s)
    ++ flat_map (fun a => match a with
                          | (FromClient, Json data) =>
                              match prepare_c2s data with
                              | Ok out => [out]
                              | Raise _ => []
                              end
                          | _ => []
                          end) arr.
Proof.
  revert s. induction arr as [|[[|] m] rest IH]; intros s Hc Hs.
  - cbn. now rewrite !app_nil_r.
  - cbn [ServerGeminiApi.relay flat_map].
    pose proof (gemini_task_step_state DEFAULT_MODEL false true m
                  {| dst := server s; log := slog s |}) as St.
    pose proof (gemini_task_step_open DEFAULT_MODEL false true m
                  {| dst := server s; log := slog s |} Hs) as Se.
    cbn [dst] in St, Se.
    destruct (IH {| client := client s;
                    server := dst (ServerGeminiApi.task_step DEFAULT_MODEL false true m
                                     {| dst := server s; log := slog s |});
                    slog := log (ServerGeminiApi.task_step DEFAULT_MODEL false true m
                                   {| dst := server s; log := slog s |}) |}
                Hc ltac:(cbn [server]; congruence)) as (A & B & C).
    split; [exact A|]. split; [exact B|]. rewrite C. cbn [server]. rewrite Se.
    rewrite <- app_assoc. f_equal. f_equal. now destruct m.
  - cbn [ServerGeminiApi.relay flat_map].
    pose proof (gemini_task_step_state DEFAULT_MODEL true false m
                  {| dst := client s; log := slog s |}) as St.
    pose proof (gemini_task_step_open DEFAULT_MODEL true false m
                  {| dst := client s; log := slog s |} Hc) as Se.
    cbn [dst] in St, Se.
    destruct (IH {| client := dst (ServerGeminiApi.task_step DEFAULT_MODEL true false m
                                     {| dst := client s; log := slog s |});
                    server := server s;
                    slog := log (ServerGeminiApi.task_step DEFAULT_MODEL true false m
                                   {| dst := client s; log := slog s |}) |}
                ltac:(cbn [client]; congruence) Hs) as (A & B & C).
    split; [exact A|]. split; [|exact C]. rewrite B. cbn [client]. rewrite Se.
    rewrite <- app_assoc. f_equal. f_equal. now destruct m.
Qed.





(** X11.  In a connected session no close code crosses the relay, in either
    direction and in both variants: whichever side ends first and with
    whatever code and reason, the other side is closed by a plain
    [close()]. *)
Theorem close_codes_do_not_cross_relay (client_websocket : ws) (trace : relay_trace) :
  state client_websocket = Open ->
  (fst (first_end trace) = FromServer ->
   state (p_client (Server.create_proxy client_websocket Connected trace))
   = ClosedByUs CloseDefault /\
   state (p_client (ServerGeminiApi.create_proxy DEFAULT_MODEL client_websocket
                      Connected trace))
   = ClosedByUs CloseDefault) /\
  (fst (first_end trace) = FromClient ->
   (exists w, p_server (Server.create_proxy client_websocket Connected trace) = Some w /\
              state w = ClosedByUs CloseDefault) /\
   (exists w, p_server (ServerGeminiApi.create_proxy DEFAULT_MODEL client_websocket
                          Connected trace) = Some w /\
              state w = ClosedByUs CloseDefault)).
Proof.
  intros Hopen.
  destruct (server_relay_sent (arrivals trace)
              {| client := client_websocket; server := fresh; slog := [] |}
              Hopen eq_refl) as (SS & _ & _).
  destruct (gemini_relay_sent (arrivals trace)
              {| client := client_websocket; server := fresh; slog := [] |}
              Hopen eq_refl) as (GS & _ & _).
  split.
  - intros He. destruct (first_end trace) as [d e] eqn:E. cbn [fst] in He. subst d.
    exact (upstream_end_closes_client_plainly DEFAULT_MODEL client_websocket trace e Hopen E).
  - intros He. destruct (first_end trace) as [d e] eqn:E. cbn [fst] in He. subst d.
    split.
    + unfold Server.create_proxy. rewrite E. eexists. split; [reflexivity|].
      cbn [server Server.task_finish dst]. unfold close at 1 2. rewrite SS. cbn.
      reflexivity.
    + unfold ServerGeminiApi.create_proxy. rewrite E. eexists. split; [reflexivity|].
      cbn [server ServerGeminiApi.task_finish dst]. unfold close at 1 2. rewrite GS. cbn.
      reflexivity.
Qed.

End RelayProperties.

(** ** The handshake *)

Section HandshakeProperties.

Import Py WS.
Local Open Scope py_scope.

(** What [d.get(key)] gives. *)
Lemma get_truthy (d : dict) (key : string) :
  truthy (match dict_get key d with Some v => v | None => JNull end) = true ->
  dict_get key d = Some (match dict_get key d with Some v => v | None => JNull end).
Proof. destruct (dict_get key d); [reflexivity | discriminate]. Qed.

(** X12.  Managed variant: an upstream connection is attempted only for a
    handshake that is a JSON object, with the object's own [service_url],
    which is truthy, and with a truthy token: the object's [bearer_token]
    if that is truthy, else the generated one. *)
Theorem managed_connect_needs_url_and_token
    (generate_access_token : option string) (client_websocket : ws) (first : first_recv)
    (outcome : connect_outcome) (trace : relay_trace) (req : Server.connect_request) :
  Server.h_connect (Server.handle_websocket_client generate_access_token client_websocket
                      first outcome trace) = Some req ->
  exists d,
    first = RecvMessage (Json (JObj d)) /\
    dict_get "service_url" d = Some (Server.service_url req) /\
    truthy (Server.service_url req) = true /\
    truthy (Server.bearer_token req) = true /\
    (dict_get "bearer_token" d = Some (Server.bearer_token req) \/
     exists token, generate_access_token = Some token /\
                   Server.bearer_token req = JStr token /\
                   match dict_get "bearer_token" d with
                   | Some b => truthy b = false
                   | None => True
                   end).
Proof.
  unfold Server.handle_websocket_client.
  destruct first as [[data|raw] | |]; cbn [loads]; try discriminate.
  destruct data as [| | | | | | d]; cbn [Py.get Py.bind]; try discriminate.
  destruct (Server.resolve_token generate_access_token
              match dict_get "bearer_token" d with Some v => v | None => JNull end)
    as [tok|] eqn:R; [|discriminate].
  destruct (truthy match dict_get "service_url" d with Some v => v | None => JNull end)
    eqn:U; cbn [negb]; [|discriminate].
  cbn [Server.h_connect]. intros [= <-]. cbn [Server.service_url Server.bearer_token].
  exists d. split; [reflexivity|]. split; [now apply get_truthy|]. split; [exact U|].
  unfold Server.resolve_token in R.
  destruct (truthy match dict_get "bearer_token" d with Some v => v | None => JNull end)
    eqn:B; cbn [negb] in R.
  - injection R as <-. split; [exact B|]. left. now apply get_truthy.
  - destruct generate_access_token as [token|]; [|discriminate R].
    destruct (truthy (JStr token)) eqn:T; cbn [negb] in R; [|discriminate R].
    injection R as <-. split; [exact T|]. right. exists token.
    split; [reflexivity|]. split; [reflexivity|].
    destruct (dict_get "bearer_token" d); [exact B | exact I].
Qed.

(** X13.  Managed variant: when the handshake object carries a truthy
    [bearer_token], the credential provider plays no part: the handler does
    the same whatever [generate_access_token] would return, and connects, if
    the [service_url] is truthy, with the client's token as it came. *)
Theorem managed_client_token_is_used_verbatim
    (d : dict) (token : json) (client_websocket : ws)
    (outcome : connect_outcome) (trace : relay_trace) :
  dict_get "bearer_token" d = Some token ->
  truthy token = true ->
  (forall g g' : option string,
     Server.handle_websocket_client g client_websocket
       (RecvMessage (Json (JObj d))) outcome trace
     = Server.handle_websocket_client g' client_websocket
         (RecvMessage (Json (JObj d))) outcome trace) /\
  (forall (g : option string) (url : json),
     dict_get "service_url" d = Some url ->
     truthy url = true ->
     Server.h_connect (Server.handle_websocket_client g client_websocket
                         (RecvMessage (Json (JObj d))) outcome trace)
     = Some {| Server.service_url := url; Server.bearer_token := token |}).
Proof.
  intros Hb Ht.
  assert (forall g, Server.resolve_token g token = Some token) as R.
  { intros g. unfold Server.resolve_token. now rewrite Ht. }
  split.
  - intros g g'. unfold Server.handle_websocket_client. cbn [loads Py.get Py.bind].
    rewrite Hb, !R. reflexivity.
  - intros g url Hu Tu. unfold Server.handle_websocket_client. cbn [loads Py.get Py.bind].
    rewrite Hb, Hu, R, Tu. reflexivity.
Qed.





End HandshakeProperties.

(** ** Frames that are no setup message *)

Section OtherFrames.

Import Py WS.
Local Open Scope py_scope.

Variable DEFAULT_MODEL : string.

Local Abbreviation prepare_c2s := (ServerGeminiApi.prepare DEFAULT_MODEL false true).

(** X18.  Direct-key variant, client frames without a setup section: an
    object without a ["setup"] key goes upstream as it is; JSON that is no
    object goes upstream as it is only if it is a string that does not
    contain ["setup"] or a list that does not hold the string ["setup"]; on
    [null], a boolean, a number, and on such a string or list the [in] test
    or the subscript raises [TypeError] and the frame is dropped. *)
Theorem client_frame_without_setup (data : json) :
  match data with
  | JObj d => dict_get "setup" d = None
  | _ => True
  end ->
  prepare_c2s data
  = match data with
    | JObj _ => Ok data
    | JStr t => if PyStr.contains "setup" t then Raise TypeError else Ok data
    | JArr l => if existsb (fun x => eq_str x "setup") l then Raise TypeError else Ok data
    | JNull | JBool _ | JInt _ | JFloat _ => Raise TypeError
    end.
Proof.
  intros N. unfold ServerGeminiApi.prepare. cbn [andb negb].
  destruct data as [| b | n | f | t | l | d]; cbn [Py.contains Py.bind]; try reflexivity.
  now rewrite dict_has_get, N.
Qed.

(** X19.  Every frame a forwarding loop takes up is accounted for once: it
    is either written to the destination or leaves one "Error processing
    message" line, never both and never neither, whatever the state of the
    destination.  Both variants, both directions. *)
Theorem every_frame_is_written_or_logged
    (is_server flag : bool) (messages : list frame) (st : task_state) :
  (length (sent (dst (Server.forward messages st)))
   + length (log (Server.forward messages st))
   = length (sent (dst st)) + length (log st) + length messages)%nat /\
  (length (sent (dst (ServerGeminiApi.forward DEFAULT_MODEL is_server flag messages st)))
   + length (log (ServerGeminiApi.forward DEFAULT_MODEL is_server flag messages st))
   = length (sent (dst st)) + length (log st) + length messages)%nat.
Proof.
  assert (forall data w,
            match send data w with
            | Ok w' => length (sent w') = S (length (sent w))
            | Raise _ => True
            end) as Snd.
  { intros data w. unfold send. destruct (state w); [|exact I|exact I].
    cbn [sent]. rewrite length_app. cbn [length]. lia. }
  split.
  - revert st. induction messages as [|m rest IH]; intros st; [cbn; lia|].
    cbn [Server.forward length]. rewrite IH. clear IH.
    unfold Server.task_step, Server.process_message.
    destruct (loads m) as [data|e]; cbn [Py.bind].
    + specialize (Snd data (dst st)). destruct (send data (dst st)); cbn [dst log].
      * lia.
      * rewrite length_app. cbn [length]. lia.
    + cbn [dst log]. rewrite length_app. cbn [length]. lia.
  - revert st. induction messages as [|m rest IH]; intros st; [cbn; lia|].
    cbn [ServerGeminiApi.forward length]. rewrite IH. clear IH.
    unfold ServerGeminiApi.task_step, ServerGeminiApi.process_message.
    destruct (loads m) as [data|e]; cbn [Py.bind].
    + destruct (ServerGeminiApi.prepare DEFAULT_MODEL is_server flag data) as [out|e];
        cbn [Py.bind].
      * specialize (Snd out (dst st)). destruct (send out (dst st)); cbn [dst log].
        -- lia.
        -- rewrite length_app. cbn [length]. lia.
      * cbn [dst log]. rewrite length_app. cbn [length]. lia.
    + cbn [dst log]. rewrite length_app. cbn [length]. lia.
Qed.

End OtherFrames.

(** ** The further properties at concrete inputs *)

Section MoreInstances.

Import Py WS ServerGeminiApi Samples.

Lemma extracted_model_is_prefixed_witness :
  extract_model_name DEFAULT_MODEL_fallback (JStr "gemini-1.5-pro") = Ok "models/gemini-1.5-pro" /\
  PyStr.startswith "models/gemini-1.5-pro" "models/" = true.
Proof.
  split; [reflexivity|].
  exact (proj1 (extracted_model_is_prefixed DEFAULT_MODEL_fallback (JStr "gemini-1.5-pro")
                  "models/gemini-1.5-pro" eq_refl)).
Defined.

Lemma looked_up_name_is_clean_suffix_witness :
  "tuned/models/gemini-1.5-flash" <> EmptyString /\
  exists p name,
    "tuned/models/gemini-1.5-flash" = (p ++ name)%string /\
    PyStr.contains "/models/" name = false /\
    (PyStr.contains "/models/" "tuned/models/gemini-1.5-flash" = false ->
     name = "tuned/models/gemini-1.5-flash") /\
    extract_model_name DEFAULT_MODEL_fallback (JStr "tuned/models/gemini-1.5-flash")
    = Ok (with_models_prefix
            (map_vertex_ai_to_gemini_api_model DEFAULT_MODEL_fallback name)).
Proof.
  assert ("tuned/models/gemini-1.5-flash" <> EmptyString) as Hne by discriminate.
  split; [exact Hne|].
  exact (looked_up_name_is_clean_suffix DEFAULT_MODEL_fallback
           "tuned/models/gemini-1.5-flash" Hne).
Defined.

Lemma prefixed_name_is_not_mapped_witness :
  PyStr.contains "/models/" ("models/" ++ "gemini-live-2.5-flash-native-audio") = false /\
  extract_model_name DEFAULT_MODEL_fallback
    (JStr "models/gemini-live-2.5-flash-native-audio")
  = Ok "models/gemini-live-2.5-flash-native-audio".
Proof.
  split; [reflexivity|].
  exact (proj1 (prefixed_name_is_not_mapped DEFAULT_MODEL_fallback
                  "gemini-live-2.5-flash-native-audio" eq_refl)).
Defined.

Lemma mapping_never_returns_managed_name_witness :
  PyStr.startswith DEFAULT_MODEL_fallback "gemini-live-" = false /\
  PyStr.startswith
    (map_vertex_ai_to_gemini_api_model DEFAULT_MODEL_fallback "gemini-live-3.0-experimental")
    "gemini-live-" = false.
Proof.
  split; [reflexivity|].
  exact (mapping_never_returns_managed_name DEFAULT_MODEL_fallback
           "gemini-live-3.0-experimental" eq_refl).
Defined.

Lemma mapping_is_idempotent_witness :
  (PyStr.startswith "gemini-live-next" "gemini-live-" = true ->
   mapping_get "gemini-live-next" model_mapping = None) /\
  map_vertex_ai_to_gemini_api_model "gemini-live-next"
    (map_vertex_ai_to_gemini_api_model "gemini-live-next" "gemini-live-3.0-experimental")
  = map_vertex_ai_to_gemini_api_model "gemini-live-next" "gemini-live-3.0-experimental".
Proof.
  assert (PyStr.startswith "gemini-live-next" "gemini-live-" = true ->
          mapping_get "gemini-live-next" model_mapping = None) as H
    by (intros _; reflexivity).
  split; [exact H|].
  exact (mapping_is_idempotent "gemini-live-next" "gemini-live-3.0-experimental" H).
Defined.

Lemma rewrite_returns_iff_well_shaped_witness :
  is_setup_message (JObj [("setup", JObj vertex_setup)]) vertex_setup /\
  exists out, prepare DEFAULT_MODEL_fallback false true (JObj [("setup", JObj vertex_setup)])
              = Ok out.
Proof.
  split; [exact vertex_setup_message|].
  apply (proj1 (rewrite_returns_iff_well_shaped DEFAULT_MODEL_fallback
                  (JObj [("setup", JObj vertex_setup)]) vertex_setup
                  vertex_setup_message)).
  split; [right; eexists; reflexivity | exact I].
Defined.



Lemma close_codes_do_not_cross_relay_witness :
  state fresh = Open /\
  exists w,
    p_server (Server.create_proxy fresh Connected
                {| arrivals := [];
                   first_end := (FromClient, RaisedConnectionClosed 4000 "bye");
                   stragglers := [] |}) = Some w /\
    state w = ClosedByUs CloseDefault.
Proof.
  split; [reflexivity|].
  exact (proj1 (proj2 (close_codes_do_not_cross_relay DEFAULT_MODEL_fallback fresh
                         {| arrivals := [];
                            first_end := (FromClient, RaisedConnectionClosed 4000 "bye");
                            stragglers := [] |}
                         eq_refl) eq_refl)).
Defined.

Lemma managed_connect_needs_url_and_token_witness :
  exists d,
    RecvMessage (Json (JObj [("service_url", JStr "wss://host/ws"); ("bearer_token", JStr "")]))
    = RecvMessage (Json (JObj d)) /\
    dict_get "service_url" d = Some (JStr "wss://host/ws") /\
    truthy (JStr "wss://host/ws") = true /\
    truthy (JStr "ya29.token") = true /\
    (dict_get "bearer_token" d = Some (JStr "ya29.token") \/
     exists token, Some "ya29.token" = Some token /\
                   JStr "ya29.token" = JStr token /\
                   match dict_get "bearer_token" d with
                   | Some b => truthy b = false
                   | None => True
                   end).
Proof.
  exact (managed_connect_needs_url_and_token (Some "ya29.token") fresh
           (RecvMessage (Json (JObj [("service_url", JStr "wss://host/ws");
                                     ("bearer_token", JStr "")])))
           ConnectRaisedOther
           {| arrivals := []; first_end := (FromClient, EndOfStream 1000 "");
              stragglers := [] |}
           {| Server.service_url := JStr "wss://host/ws";
              Server.bearer_token := JStr "ya29.token" |}
           eq_refl).
Defined.

Lemma managed_client_token_is_used_verbatim_witness :
  dict_get "bearer_token" [("bearer_token", JStr "client-token");
                           ("service_url", JStr "wss://host/ws")]
  = Some (JStr "client-token") /\
  truthy (JStr "client-token") = true /\
  Server.h_connect
    (Server.handle_websocket_client None fresh
       (RecvMessage (Json (JObj [("bearer_token", JStr "client-token");
                                 ("service_url", JStr "wss://host/ws")])))
       ConnectRaisedOther
       {| arrivals := []; first_end := (FromClient, EndOfStream 1000 "");
          stragglers := [] |})
  = Some {| Server.service_url := JStr "wss://host/ws";
            Server.bearer_token := JStr "client-token" |}.
Proof.
  split; [reflexivity|]. split; [reflexivity|].
  exact (proj2 (managed_client_token_is_used_verbatim
                  [("bearer_token", JStr "client-token");
                   ("service_url", JStr "wss://host/ws")]
                  (JStr "client-token") fresh ConnectRaisedOther
                  {| arrivals := []; first_end := (FromClient, EndOfStream 1000 "");
                     stragglers := [] |}
                  eq_refl eq_refl)
           None (JStr "wss://host/ws") eq_refl eq_refl).
Defined.



Lemma client_frame_without_setup_witness :
  dict_get "setup" [("realtime_input", JObj [])] = None /\
  prepare DEFAULT_MODEL_fallback false true (JObj [("realtime_input", JObj [])])
  = Ok (JObj [("realtime_input", JObj [])]).
Proof.
  split; [reflexivity|].
  exact (client_frame_without_setup DEFAULT_MODEL_fallback
           (JObj [("realtime_input", JObj [])]) eq_refl).
Defined.

End MoreInstances.
